(** * UK VRM Lookup: a model of [backend/main.py]

    The service accepts a UK registration plate, normalises it, asks the
    DVLA Vehicle Enquiry Service about it and maps the answer to a reduced
    response.  This file embeds the request path of [backend/main.py]
    ([normalize_plate], [call_dvla], [root], [health], [lookup]) and proves
    the properties of the specification about it.

    Python strings are sequences of Unicode code points, so a string is a
    list of code points here; [str.strip], the regular-expression class
    [\s] and [str.upper] follow CPython's Unicode tables.  The handlers run
    in a small monad that threads the list of requests sent to the upstream
    service and carries Python exceptions. *)

From Stdlib Require Import NArith ZArith List Bool String Ascii Lia.
From Stdlib Require Import Floats.SpecFloat.
Import ListNotations.

(** ** Python strings *)

(** A code point, U+0000 .. U+10FFFF. *)
Definition char := N.

Definition pystr := list char.

(** An ASCII literal of the source as a Python string. *)
Definition lit (s : string) : pystr :=
  map N_of_ascii (list_ascii_of_string s).

Fixpoint pystr_eqb (a b : pystr) : bool :=
  match a, b with
  | [], [] => true
  | x :: a', y :: b' => N.eqb x y && pystr_eqb a' b'
  | _, _ => false
  end.

(** [Py_UNICODE_ISSPACE]: the characters that [str.isspace], [str.strip] and
    the class [\s] of a [str] pattern treat as whitespace. *)
Definition is_space (c : char) : bool :=
  ((0x09 <=? c) && (c <=? 0x0D)
   || (0x1C <=? c) && (c <=? 0x20)
   || (c =? 0x85) || (c =? 0xA0) || (c =? 0x1680)
   || (0x2000 <=? c) && (c <=? 0x200A)
   || (c =? 0x2028) || (c =? 0x2029) || (c =? 0x202F)
   || (c =? 0x205F) || (c =? 0x3000))%N.

(** HYPHEN-MINUS, the [-] of the pattern. *)
Definition hyphen : char := 0x2D%N.

Definition is_hyphen (c : char) : bool := N.eqb c hyphen.

Fixpoint drop_while (p : char -> bool) (s : pystr) : pystr :=
  match s with
  | [] => []
  | c :: s' => if p c then drop_while p s' else s
  end.

Definition str_lstrip (s : pystr) : pystr := drop_while is_space s.

Definition str_rstrip (s : pystr) : pystr :=
  rev (drop_while is_space (rev s)).

(** [s.strip()]: the left end moves right over whitespace, then the right
    end moves left over whitespace. *)
Definition str_strip (s : pystr) : pystr := str_rstrip (str_lstrip s).

(** [s[:n]] for a non-negative constant [n]. *)
Definition str_prefix (n : nat) (s : pystr) : pystr := firstn n s.

(** Truth value of a string: non-empty. *)
Definition str_truthy (s : pystr) : bool :=
  match s with [] => false | _ :: _ => true end.

(** ** Upper-casing

    [str.upper] maps every code point through the full upper-case mapping of
    the Unicode character database (here version 14.0.0): most code points
    with an upper case map to one code point ([simple_upper]); a few map to
    two or three ([special_upper]); every other code point is unchanged. *)

(** Code points U+0061 .. U+01E3. *)
Definition simple_upper_0 : list (N * N) :=
  [
   (0x0061, 0x0041); (0x0062, 0x0042); (0x0063, 0x0043); (0x0064, 0x0044); (0x0065, 0x0045);
   (0x0066, 0x0046); (0x0067, 0x0047); (0x0068, 0x0048); (0x0069, 0x0049); (0x006A, 0x004A);
   (0x006B, 0x004B); (0x006C, 0x004C); (0x006D, 0x004D); (0x006E, 0x004E); (0x006F, 0x004F);
   (0x0070, 0x0050); (0x0071, 0x0051); (0x0072, 0x0052); (0x0073, 0x0053); (0x0074, 0x0054);
   (0x0075, 0x0055); (0x0076, 0x0056); (0x0077, 0x0057); (0x0078, 0x0058); (0x0079, 0x0059);
   (0x007A, 0x005A); (0x00B5, 0x039C); (0x00E0, 0x00C0); (0x00E1, 0x00C1); (0x00E2, 0x00C2);
   (0x00E3, 0x00C3); (0x00E4, 0x00C4); (0x00E5, 0x00C5); (0x00E6, 0x00C6); (0x00E7, 0x00C7);
   (0x00E8, 0x00C8); (0x00E9, 0x00C9); (0x00EA, 0x00CA); (0x00EB, 0x00CB); (0x00EC, 0x00CC);
   (0x00ED, 0x00CD); (0x00EE, 0x00CE); (0x00EF, 0x00CF); (0x00F0, 0x00D0); (0x00F1, 0x00D1);
   (0x00F2, 0x00D2); (0x00F3, 0x00D3); (0x00F4, 0x00D4); (0x00F5, 0x00D5); (0x00F6, 0x00D6);
   (0x00F8, 0x00D8); (0x00F9, 0x00D9); (0x00FA, 0x00DA); (0x00FB, 0x00DB); (0x00FC, 0x00DC);
   (0x00FD, 0x00DD); (0x00FE, 0x00DE); (0x00FF, 0x0178); (0x0101, 0x0100); (0x0103, 0x0102);
   (0x0105, 0x0104); (0x0107, 0x0106); (0x0109, 0x0108); (0x010B, 0x010A); (0x010D, 0x010C);
   (0x010F, 0x010E); (0x0111, 0x0110); (0x0113, 0x0112); (0x0115, 0x0114); (0x0117, 0x0116);
   (0x0119, 0x0118); (0x011B, 0x011A); (0x011D, 0x011C); (0x011F, 0x011E); (0x0121, 0x0120);
   (0x0123, 0x0122); (0x0125, 0x0124); (0x0127, 0x0126); (0x0129, 0x0128); (0x012B, 0x012A);
   (0x012D, 0x012C); (0x012F, 0x012E); (0x0131, 0x0049); (0x0133, 0x0132); (0x0135, 0x0134);
   (0x0137, 0x0136); (0x013A, 0x0139); (0x013C, 0x013B); (0x013E, 0x013D); (0x0140, 0x013F);
   (0x0142, 0x0141); (0x0144, 0x0143); (0x0146, 0x0145); (0x0148, 0x0147); (0x014B, 0x014A);
   (0x014D, 0x014C); (0x014F, 0x014E); (0x0151, 0x0150); (0x0153, 0x0152); (0x0155, 0x0154);
   (0x0157, 0x0156); (0x0159, 0x0158); (0x015B, 0x015A); (0x015D, 0x015C); (0x015F, 0x015E);
   (0x0161, 0x0160); (0x0163, 0x0162); (0x0165, 0x0164); (0x0167, 0x0166); (0x0169, 0x0168);
   (0x016B, 0x016A); (0x016D, 0x016C); (0x016F, 0x016E); (0x0171, 0x0170); (0x0173, 0x0172);
   (0x0175, 0x0174); (0x0177, 0x0176); (0x017A, 0x0179); (0x017C, 0x017B); (0x017E, 0x017D);
   (0x017F, 0x0053); (0x0180, 0x0243); (0x0183, 0x0182); (0x0185, 0x0184); (0x0188, 0x0187);
   (0x018C, 0x018B); (0x0192, 0x0191); (0x0195, 0x01F6); (0x0199, 0x0198); (0x019A, 0x023D);
   (0x019E, 0x0220); (0x01A1, 0x01A0); (0x01A3, 0x01A2); (0x01A5, 0x01A4); (0x01A8, 0x01A7);
   (0x01AD, 0x01AC); (0x01B0, 0x01AF); (0x01B4, 0x01B3); (0x01B6, 0x01B5); (0x01B9, 0x01B8);
   (0x01BD, 0x01BC); (0x01BF, 0x01F7); (0x01C5, 0x01C4); (0x01C6, 0x01C4); (0x01C8, 0x01C7);
   (0x01C9, 0x01C7); (0x01CB, 0x01CA); (0x01CC, 0x01CA); (0x01CE, 0x01CD); (0x01D0, 0x01CF);
   (0x01D2, 0x01D1); (0x01D4, 0x01D3); (0x01D6, 0x01D5); (0x01D8, 0x01D7); (0x01DA, 0x01D9);
   (0x01DC, 0x01DB); (0x01DD, 0x018E); (0x01DF, 0x01DE); (0x01E1, 0x01E0); (0x01E3, 0x01E2)
  ]%N.

(** Code points U+01E5 .. U+043A. *)
Definition simple_upper_1 : list (N * N) :=
  [
   (0x01E5, 0x01E4); (0x01E7, 0x01E6); (0x01E9, 0x01E8); (0x01EB, 0x01EA); (0x01ED, 0x01EC);
   (0x01EF, 0x01EE); (0x01F2, 0x01F1); (0x01F3, 0x01F1); (0x01F5, 0x01F4); (0x01F9, 0x01F8);
   (0x01FB, 0x01FA); (0x01FD, 0x01FC); (0x01FF, 0x01FE); (0x0201, 0x0200); (0x0203, 0x0202);
   (0x0205, 0x0204); (0x0207, 0x0206); (0x0209, 0x0208); (0x020B, 0x020A); (0x020D, 0x020C);
   (0x020F, 0x020E); (0x0211, 0x0210); (0x0213, 0x0212); (0x0215, 0x0214); (0x0217, 0x0216);
   (0x0219, 0x0218); (0x021B, 0x021A); (0x021D, 0x021C); (0x021F, 0x021E); (0x0223, 0x0222);
   (0x0225, 0x0224); (0x0227, 0x0226); (0x0229, 0x0228); (0x022B, 0x022A); (0x022D, 0x022C);
   (0x022F, 0x022E); (0x0231, 0x0230); (0x0233, 0x0232); (0x023C, 0x023B); (0x023F, 0x2C7E);
   (0x0240, 0x2C7F); (0x0242, 0x0241); (0x0247, 0x0246); (0x0249, 0x0248); (0x024B, 0x024A);
   (0x024D, 0x024C); (0x024F, 0x024E); (0x0250, 0x2C6F); (0x0251, 0x2C6D); (0x0252, 0x2C70);
   (0x0253, 0x0181); (0x0254, 0x0186); (0x0256, 0x0189); (0x0257, 0x018A); (0x0259, 0x018F);
   (0x025B, 0x0190); (0x025C, 0xA7AB); (0x0260, 0x0193); (0x0261, 0xA7AC); (0x0263, 0x0194);
   (0x0265, 0xA78D); (0x0266, 0xA7AA); (0x0268, 0x0197); (0x0269, 0x0196); (0x026A, 0xA7AE);
   (0x026B, 0x2C62); (0x026C, 0xA7AD); (0x026F, 0x019C); (0x0271, 0x2C6E); (0x0272, 0x019D);
   (0x0275, 0x019F); (0x027D, 0x2C64); (0x0280, 0x01A6); (0x0282, 0xA7C5); (0x0283, 0x01A9);
   (0x0287, 0xA7B1); (0x0288, 0x01AE); (0x0289, 0x0244); (0x028A, 0x01B1); (0x028B, 0x01B2);
   (0x028C, 0x0245); (0x0292, 0x01B7); (0x029D, 0xA7B2); (0x029E, 0xA7B0); (0x0345, 0x0399);
   (0x0371, 0x0370); (0x0373, 0x0372); (0x0377, 0x0376); (0x037B, 0x03FD); (0x037C, 0x03FE);
   (0x037D, 0x03FF); (0x03AC, 0x0386); (0x03AD, 0x0388); (0x03AE, 0x0389); (0x03AF, 0x038A);
   (0x03B1, 0x0391); (0x03B2, 0x0392); (0x03B3, 0x0393); (0x03B4, 0x0394); (0x03B5, 0x0395);
   (0x03B6, 0x0396); (0x03B7, 0x0397); (0x03B8, 0x0398); (0x03B9, 0x0399); (0x03BA, 0x039A);
   (0x03BB, 0x039B); (0x03BC, 0x039C); (0x03BD, 0x039D); (0x03BE, 0x039E); (0x03BF, 0x039F);
   (0x03C0, 0x03A0); (0x03C1, 0x03A1); (0x03C2, 0x03A3); (0x03C3, 0x03A3); (0x03C4, 0x03A4);
   (0x03C5, 0x03A5); (0x03C6, 0x03A6); (0x03C7, 0x03A7); (0x03C8, 0x03A8); (0x03C9, 0x03A9);
   (0x03CA, 0x03AA); (0x03CB, 0x03AB); (0x03CC, 0x038C); (0x03CD, 0x038E); (0x03CE, 0x038F);
   (0x03D0, 0x0392); (0x03D1, 0x0398); (0x03D5, 0x03A6); (0x03D6, 0x03A0); (0x03D7, 0x03CF);
   (0x03D9, 0x03D8); (0x03DB, 0x03DA); (0x03DD, 0x03DC); (0x03DF, 0x03DE); (0x03E1, 0x03E0);
   (0x03E3, 0x03E2); (0x03E5, 0x03E4); (0x03E7, 0x03E6); (0x03E9, 0x03E8); (0x03EB, 0x03EA);
   (0x03ED, 0x03EC); (0x03EF, 0x03EE); (0x03F0, 0x039A); (0x03F1, 0x03A1); (0x03F2, 0x03F9);
   (0x03F3, 0x037F); (0x03F5, 0x0395); (0x03F8, 0x03F7); (0x03FB, 0x03FA); (0x0430, 0x0410);
   (0x0431, 0x0411); (0x0432, 0x0412); (0x0433, 0x0413); (0x0434, 0x0414); (0x0435, 0x0415);
   (0x0436, 0x0416); (0x0437, 0x0417); (0x0438, 0x0418); (0x0439, 0x0419); (0x043A, 0x041A)
  ]%N.

(** Code points U+043B .. U+0577. *)
Definition simple_upper_2 : list (N * N) :=
  [
   (0x043B, 0x041B); (0x043C, 0x041C); (0x043D, 0x041D); (0x043E, 0x041E); (0x043F, 0x041F);
   (0x0440, 0x0420); (0x0441, 0x0421); (0x0442, 0x0422); (0x0443, 0x0423); (0x0444, 0x0424);
   (0x0445, 0x0425); (0x0446, 0x0426); (0x0447, 0x0427); (0x0448, 0x0428); (0x0449, 0x0429);
   (0x044A, 0x042A); (0x044B, 0x042B); (0x044C, 0x042C); (0x044D, 0x042D); (0x044E, 0x042E);
   (0x044F, 0x042F); (0x0450, 0x0400); (0x0451, 0x0401); (0x0452, 0x0402); (0x0453, 0x0403);
   (0x0454, 0x0404); (0x0455, 0x0405); (0x0456, 0x0406); (0x0457, 0x0407); (0x0458, 0x0408);
   (0x0459, 0x0409); (0x045A, 0x040A); (0x045B, 0x040B); (0x045C, 0x040C); (0x045D, 0x040D);
   (0x045E, 0x040E); (0x045F, 0x040F); (0x0461, 0x0460); (0x0463, 0x0462); (0x0465, 0x0464);
   (0x0467, 0x0466); (0x0469, 0x0468); (0x046B, 0x046A); (0x046D, 0x046C); (0x046F, 0x046E);
   (0x0471, 0x0470); (0x0473, 0x0472); (0x0475, 0x0474); (0x0477, 0x0476); (0x0479, 0x0478);
   (0x047B, 0x047A); (0x047D, 0x047C); (0x047F, 0x047E); (0x0481, 0x0480); (0x048B, 0x048A);
   (0x048D, 0x048C); (0x048F, 0x048E); (0x0491, 0x0490); (0x0493, 0x0492); (0x0495, 0x0494);
   (0x0497, 0x0496); (0x0499, 0x0498); (0x049B, 0x049A); (0x049D, 0x049C); (0x049F, 0x049E);
   (0x04A1, 0x04A0); (0x04A3, 0x04A2); (0x04A5, 0x04A4); (0x04A7, 0x04A6); (0x04A9, 0x04A8);
   (0x04AB, 0x04AA); (0x04AD, 0x04AC); (0x04AF, 0x04AE); (0x04B1, 0x04B0); (0x04B3, 0x04B2);
   (0x04B5, 0x04B4); (0x04B7, 0x04B6); (0x04B9, 0x04B8); (0x04BB, 0x04BA); (0x04BD, 0x04BC);
   (0x04BF, 0x04BE); (0x04C2, 0x04C1); (0x04C4, 0x04C3); (0x04C6, 0x04C5); (0x04C8, 0x04C7);
   (0x04CA, 0x04C9); (0x04CC, 0x04CB); (0x04CE, 0x04CD); (0x04CF, 0x04C0); (0x04D1, 0x04D0);
   (0x04D3, 0x04D2); (0x04D5, 0x04D4); (0x04D7, 0x04D6); (0x04D9, 0x04D8); (0x04DB, 0x04DA);
   (0x04DD, 0x04DC); (0x04DF, 0x04DE); (0x04E1, 0x04E0); (0x04E3, 0x04E2); (0x04E5, 0x04E4);
   (0x04E7, 0x04E6); (0x04E9, 0x04E8); (0x04EB, 0x04EA); (0x04ED, 0x04EC); (0x04EF, 0x04EE);
   (0x04F1, 0x04F0); (0x04F3, 0x04F2); (0x04F5, 0x04F4); (0x04F7, 0x04F6); (0x04F9, 0x04F8);
   (0x04FB, 0x04FA); (0x04FD, 0x04FC); (0x04FF, 0x04FE); (0x0501, 0x0500); (0x0503, 0x0502);
   (0x0505, 0x0504); (0x0507, 0x0506); (0x0509, 0x0508); (0x050B, 0x050A); (0x050D, 0x050C);
   (0x050F, 0x050E); (0x0511, 0x0510); (0x0513, 0x0512); (0x0515, 0x0514); (0x0517, 0x0516);
   (0x0519, 0x0518); (0x051B, 0x051A); (0x051D, 0x051C); (0x051F, 0x051E); (0x0521, 0x0520);
   (0x0523, 0x0522); (0x0525, 0x0524); (0x0527, 0x0526); (0x0529, 0x0528); (0x052B, 0x052A);
   (0x052D, 0x052C); (0x052F, 0x052E); (0x0561, 0x0531); (0x0562, 0x0532); (0x0563, 0x0533);
   (0x0564, 0x0534); (0x0565, 0x0535); (0x0566, 0x0536); (0x0567, 0x0537); (0x0568, 0x0538);
   (0x0569, 0x0539); (0x056A, 0x053A); (0x056B, 0x053B); (0x056C, 0x053C); (0x056D, 0x053D);
   (0x056E, 0x053E); (0x056F, 0x053F); (0x0570, 0x0540); (0x0571, 0x0541); (0x0572, 0x0542);
   (0x0573, 0x0543); (0x0574, 0x0544); (0x0575, 0x0545); (0x0576, 0x0546); (0x0577, 0x0547)
  ]%N.

(** Code points U+0578 .. U+1EA9. *)
Definition simple_upper_3 : list (N * N) :=
  [
   (0x0578, 0x0548); (0x0579, 0x0549); (0x057A, 0x054A); (0x057B, 0x054B); (0x057C, 0x054C);
   (0x057D, 0x054D); (0x057E, 0x054E); (0x057F, 0x054F); (0x0580, 0x0550); (0x0581, 0x0551);
   (0x0582, 0x0552); (0x0583, 0x0553); (0x0584, 0x0554); (0x0585, 0x0555); (0x0586, 0x0556);
   (0x10D0, 0x1C90); (0x10D1, 0x1C91); (0x10D2, 0x1C92); (0x10D3, 0x1C93); (0x10D4, 0x1C94);
   (0x10D5, 0x1C95); (0x10D6, 0x1C96); (0x10D7, 0x1C97); (0x10D8, 0x1C98); (0x10D9, 0x1C99);
   (0x10DA, 0x1C9A); (0x10DB, 0x1C9B); (0x10DC, 0x1C9C); (0x10DD, 0x1C9D); (0x10DE, 0x1C9E);
   (0x10DF, 0x1C9F); (0x10E0, 0x1CA0); (0x10E1, 0x1CA1); (0x10E2, 0x1CA2); (0x10E3, 0x1CA3);
   (0x10E4, 0x1CA4); (0x10E5, 0x1CA5); (0x10E6, 0x1CA6); (0x10E7, 0x1CA7); (0x10E8, 0x1CA8);
   (0x10E9, 0x1CA9); (0x10EA, 0x1CAA); (0x10EB, 0x1CAB); (0x10EC, 0x1CAC); (0x10ED, 0x1CAD);
   (0x10EE, 0x1CAE); (0x10EF, 0x1CAF); (0x10F0, 0x1CB0); (0x10F1, 0x1CB1); (0x10F2, 0x1CB2);
   (0x10F3, 0x1CB3); (0x10F4, 0x1CB4); (0x10F5, 0x1CB5); (0x10F6, 0x1CB6); (0x10F7, 0x1CB7);
   (0x10F8, 0x1CB8); (0x10F9, 0x1CB9); (0x10FA, 0x1CBA); (0x10FD, 0x1CBD); (0x10FE, 0x1CBE);
   (0x10FF, 0x1CBF); (0x13F8, 0x13F0); (0x13F9, 0x13F1); (0x13FA, 0x13F2); (0x13FB, 0x13F3);
   (0x13FC, 0x13F4); (0x13FD, 0x13F5); (0x1C80, 0x0412); (0x1C81, 0x0414); (0x1C82, 0x041E);
   (0x1C83, 0x0421); (0x1C84, 0x0422); (0x1C85, 0x0422); (0x1C86, 0x042A); (0x1C87, 0x0462);
   (0x1C88, 0xA64A); (0x1D79, 0xA77D); (0x1D7D, 0x2C63); (0x1D8E, 0xA7C6); (0x1E01, 0x1E00);
   (0x1E03, 0x1E02); (0x1E05, 0x1E04); (0x1E07, 0x1E06); (0x1E09, 0x1E08); (0x1E0B, 0x1E0A);
   (0x1E0D, 0x1E0C); (0x1E0F, 0x1E0E); (0x1E11, 0x1E10); (0x1E13, 0x1E12); (0x1E15, 0x1E14);
   (0x1E17, 0x1E16); (0x1E19, 0x1E18); (0x1E1B, 0x1E1A); (0x1E1D, 0x1E1C); (0x1E1F, 0x1E1E);
   (0x1E21, 0x1E20); (0x1E23, 0x1E22); (0x1E25, 0x1E24); (0x1E27, 0x1E26); (0x1E29, 0x1E28);
   (0x1E2B, 0x1E2A); (0x1E2D, 0x1E2C); (0x1E2F, 0x1E2E); (0x1E31, 0x1E30); (0x1E33, 0x1E32);
   (0x1E35, 0x1E34); (0x1E37, 0x1E36); (0x1E39, 0x1E38); (0x1E3B, 0x1E3A); (0x1E3D, 0x1E3C);
   (0x1E3F, 0x1E3E); (0x1E41, 0x1E40); (0x1E43, 0x1E42); (0x1E45, 0x1E44); (0x1E47, 0x1E46);
   (0x1E49, 0x1E48); (0x1E4B, 0x1E4A); (0x1E4D, 0x1E4C); (0x1E4F, 0x1E4E); (0x1E51, 0x1E50);
   (0x1E53, 0x1E52); (0x1E55, 0x1E54); (0x1E57, 0x1E56); (0x1E59, 0x1E58); (0x1E5B, 0x1E5A);
   (0x1E5D, 0x1E5C); (0x1E5F, 0x1E5E); (0x1E61, 0x1E60); (0x1E63, 0x1E62); (0x1E65, 0x1E64);
   (0x1E67, 0x1E66); (0x1E69, 0x1E68); (0x1E6B, 0x1E6A); (0x1E6D, 0x1E6C); (0x1E6F, 0x1E6E);
   (0x1E71, 0x1E70); (0x1E73, 0x1E72); (0x1E75, 0x1E74); (0x1E77, 0x1E76); (0x1E79, 0x1E78);
   (0x1E7B, 0x1E7A); (0x1E7D, 0x1E7C); (0x1E7F, 0x1E7E); (0x1E81, 0x1E80); (0x1E83, 0x1E82);
   (0x1E85, 0x1E84); (0x1E87, 0x1E86); (0x1E89, 0x1E88); (0x1E8B, 0x1E8A); (0x1E8D, 0x1E8C);
   (0x1E8F, 0x1E8E); (0x1E91, 0x1E90); (0x1E93, 0x1E92); (0x1E95, 0x1E94); (0x1E9B, 0x1E60);
   (0x1EA1, 0x1EA0); (0x1EA3, 0x1EA2); (0x1EA5, 0x1EA4); (0x1EA7, 0x1EA6); (0x1EA9, 0x1EA8)
  ]%N.

(** Code points U+1EAB .. U+2C32. *)
Definition simple_upper_4 : list (N * N) :=
  [
   (0x1EAB, 0x1EAA); (0x1EAD, 0x1EAC); (0x1EAF, 0x1EAE); (0x1EB1, 0x1EB0); (0x1EB3, 0x1EB2);
   (0x1EB5, 0x1EB4); (0x1EB7, 0x1EB6); (0x1EB9, 0x1EB8); (0x1EBB, 0x1EBA); (0x1EBD, 0x1EBC);
   (0x1EBF, 0x1EBE); (0x1EC1, 0x1EC0); (0x1EC3, 0x1EC2); (0x1EC5, 0x1EC4); (0x1EC7, 0x1EC6);
   (0x1EC9, 0x1EC8); (0x1ECB, 0x1ECA); (0x1ECD, 0x1ECC); (0x1ECF, 0x1ECE); (0x1ED1, 0x1ED0);
   (0x1ED3, 0x1ED2); (0x1ED5, 0x1ED4); (0x1ED7, 0x1ED6); (0x1ED9, 0x1ED8); (0x1EDB, 0x1EDA);
   (0x1EDD, 0x1EDC); (0x1EDF, 0x1EDE); (0x1EE1, 0x1EE0); (0x1EE3, 0x1EE2); (0x1EE5, 0x1EE4);
   (0x1EE7, 0x1EE6); (0x1EE9, 0x1EE8); (0x1EEB, 0x1EEA); (0x1EED, 0x1EEC); (0x1EEF, 0x1EEE);
   (0x1EF1, 0x1EF0); (0x1EF3, 0x1EF2); (0x1EF5, 0x1EF4); (0x1EF7, 0x1EF6); (0x1EF9, 0x1EF8);
   (0x1EFB, 0x1EFA); (0x1EFD, 0x1EFC); (0x1EFF, 0x1EFE); (0x1F00, 0x1F08); (0x1F01, 0x1F09);
   (0x1F02, 0x1F0A); (0x1F03, 0x1F0B); (0x1F04, 0x1F0C); (0x1F05, 0x1F0D); (0x1F06, 0x1F0E);
   (0x1F07, 0x1F0F); (0x1F10, 0x1F18); (0x1F11, 0x1F19); (0x1F12, 0x1F1A); (0x1F13, 0x1F1B);
   (0x1F14, 0x1F1C); (0x1F15, 0x1F1D); (0x1F20, 0x1F28); (0x1F21, 0x1F29); (0x1F22, 0x1F2A);
   (0x1F23, 0x1F2B); (0x1F24, 0x1F2C); (0x1F25, 0x1F2D); (0x1F26, 0x1F2E); (0x1F27, 0x1F2F);
   (0x1F30, 0x1F38); (0x1F31, 0x1F39); (0x1F32, 0x1F3A); (0x1F33, 0x1F3B); (0x1F34, 0x1F3C);
   (0x1F35, 0x1F3D); (0x1F36, 0x1F3E); (0x1F37, 0x1F3F); (0x1F40, 0x1F48); (0x1F41, 0x1F49);
   (0x1F42, 0x1F4A); (0x1F43, 0x1F4B); (0x1F44, 0x1F4C); (0x1F45, 0x1F4D); (0x1F51, 0x1F59);
   (0x1F53, 0x1F5B); (0x1F55, 0x1F5D); (0x1F57, 0x1F5F); (0x1F60, 0x1F68); (0x1F61, 0x1F69);
   (0x1F62, 0x1F6A); (0x1F63, 0x1F6B); (0x1F64, 0x1F6C); (0x1F65, 0x1F6D); (0x1F66, 0x1F6E);
   (0x1F67, 0x1F6F); (0x1F70, 0x1FBA); (0x1F71, 0x1FBB); (0x1F72, 0x1FC8); (0x1F73, 0x1FC9);
   (0x1F74, 0x1FCA); (0x1F75, 0x1FCB); (0x1F76, 0x1FDA); (0x1F77, 0x1FDB); (0x1F78, 0x1FF8);
   (0x1F79, 0x1FF9); (0x1F7A, 0x1FEA); (0x1F7B, 0x1FEB); (0x1F7C, 0x1FFA); (0x1F7D, 0x1FFB);
   (0x1FB0, 0x1FB8); (0x1FB1, 0x1FB9); (0x1FBE, 0x0399); (0x1FD0, 0x1FD8); (0x1FD1, 0x1FD9);
   (0x1FE0, 0x1FE8); (0x1FE1, 0x1FE9); (0x1FE5, 0x1FEC); (0x214E, 0x2132); (0x2170, 0x2160);
   (0x2171, 0x2161); (0x2172, 0x2162); (0x2173, 0x2163); (0x2174, 0x2164); (0x2175, 0x2165);
   (0x2176, 0x2166); (0x2177, 0x2167); (0x2178, 0x2168); (0x2179, 0x2169); (0x217A, 0x216A);
   (0x217B, 0x216B); (0x217C, 0x216C); (0x217D, 0x216D); (0x217E, 0x216E); (0x217F, 0x216F);
   (0x2184, 0x2183); (0x24D0, 0x24B6); (0x24D1, 0x24B7); (0x24D2, 0x24B8); (0x24D3, 0x24B9);
   (0x24D4, 0x24BA); (0x24D5, 0x24BB); (0x24D6, 0x24BC); (0x24D7, 0x24BD); (0x24D8, 0x24BE);
   (0x24D9, 0x24BF); (0x24DA, 0x24C0); (0x24DB, 0x24C1); (0x24DC, 0x24C2); (0x24DD, 0x24C3);
   (0x24DE, 0x24C4); (0x24DF, 0x24C5); (0x24E0, 0x24C6); (0x24E1, 0x24C7); (0x24E2, 0x24C8);
   (0x24E3, 0x24C9); (0x24E4, 0x24CA); (0x24E5, 0x24CB); (0x24E6, 0x24CC); (0x24E7, 0x24CD);
   (0x24E8, 0x24CE); (0x24E9, 0x24CF); (0x2C30, 0x2C00); (0x2C31, 0x2C01); (0x2C32, 0x2C02)
  ]%N.

(** Code points U+2C33 .. U+A65B. *)
Definition simple_upper_5 : list (N * N) :=
  [
   (0x2C33, 0x2C03); (0x2C34, 0x2C04); (0x2C35, 0x2C05); (0x2C36, 0x2C06); (0x2C37, 0x2C07);
   (0x2C38, 0x2C08); (0x2C39, 0x2C09); (0x2C3A, 0x2C0A); (0x2C3B, 0x2C0B); (0x2C3C, 0x2C0C);
   (0x2C3D, 0x2C0D); (0x2C3E, 0x2C0E); (0x2C3F, 0x2C0F); (0x2C40, 0x2C10); (0x2C41, 0x2C11);
   (0x2C42, 0x2C12); (0x2C43, 0x2C13); (0x2C44, 0x2C14); (0x2C45, 0x2C15); (0x2C46, 0x2C16);
   (0x2C47, 0x2C17); (0x2C48, 0x2C18); (0x2C49, 0x2C19); (0x2C4A, 0x2C1A); (0x2C4B, 0x2C1B);
   (0x2C4C, 0x2C1C); (0x2C4D, 0x2C1D); (0x2C4E, 0x2C1E); (0x2C4F, 0x2C1F); (0x2C50, 0x2C20);
   (0x2C51, 0x2C21); (0x2C52, 0x2C22); (0x2C53, 0x2C23); (0x2C54, 0x2C24); (0x2C55, 0x2C25);
   (0x2C56, 0x2C26); (0x2C57, 0x2C27); (0x2C58, 0x2C28); (0x2C59, 0x2C29); (0x2C5A, 0x2C2A);
   (0x2C5B, 0x2C2B); (0x2C5C, 0x2C2C); (0x2C5D, 0x2C2D); (0x2C5E, 0x2C2E); (0x2C5F, 0x2C2F);
   (0x2C61, 0x2C60); (0x2C65, 0x023A); (0x2C66, 0x023E); (0x2C68, 0x2C67); (0x2C6A, 0x2C69);
   (0x2C6C, 0x2C6B); (0x2C73, 0x2C72); (0x2C76, 0x2C75); (0x2C81, 0x2C80); (0x2C83, 0x2C82);
   (0x2C85, 0x2C84); (0x2C87, 0x2C86); (0x2C89, 0x2C88); (0x2C8B, 0x2C8A); (0x2C8D, 0x2C8C);
   (0x2C8F, 0x2C8E); (0x2C91, 0x2C90); (0x2C93, 0x2C92); (0x2C95, 0x2C94); (0x2C97, 0x2C96);
   (0x2C99, 0x2C98); (0x2C9B, 0x2C9A); (0x2C9D, 0x2C9C); (0x2C9F, 0x2C9E); (0x2CA1, 0x2CA0);
   (0x2CA3, 0x2CA2); (0x2CA5, 0x2CA4); (0x2CA7, 0x2CA6); (0x2CA9, 0x2CA8); (0x2CAB, 0x2CAA);
   (0x2CAD, 0x2CAC); (0x2CAF, 0x2CAE); (0x2CB1, 0x2CB0); (0x2CB3, 0x2CB2); (0x2CB5, 0x2CB4);
   (0x2CB7, 0x2CB6); (0x2CB9, 0x2CB8); (0x2CBB, 0x2CBA); (0x2CBD, 0x2CBC); (0x2CBF, 0x2CBE);
   (0x2CC1, 0x2CC0); (0x2CC3, 0x2CC2); (0x2CC5, 0x2CC4); (0x2CC7, 0x2CC6); (0x2CC9, 0x2CC8);
   (0x2CCB, 0x2CCA); (0x2CCD, 0x2CCC); (0x2CCF, 0x2CCE); (0x2CD1, 0x2CD0); (0x2CD3, 0x2CD2);
   (0x2CD5, 0x2CD4); (0x2CD7, 0x2CD6); (0x2CD9, 0x2CD8); (0x2CDB, 0x2CDA); (0x2CDD, 0x2CDC);
   (0x2CDF, 0x2CDE); (0x2CE1, 0x2CE0); (0x2CE3, 0x2CE2); (0x2CEC, 0x2CEB); (0x2CEE, 0x2CED);
   (0x2CF3, 0x2CF2); (0x2D00, 0x10A0); (0x2D01, 0x10A1); (0x2D02, 0x10A2); (0x2D03, 0x10A3);
   (0x2D04, 0x10A4); (0x2D05, 0x10A5); (0x2D06, 0x10A6); (0x2D07, 0x10A7); (0x2D08, 0x10A8);
   (0x2D09, 0x10A9); (0x2D0A, 0x10AA); (0x2D0B, 0x10AB); (0x2D0C, 0x10AC); (0x2D0D, 0x10AD);
   (0x2D0E, 0x10AE); (0x2D0F, 0x10AF); (0x2D10, 0x10B0); (0x2D11, 0x10B1); (0x2D12, 0x10B2);
   (0x2D13, 0x10B3); (0x2D14, 0x10B4); (0x2D15, 0x10B5); (0x2D16, 0x10B6); (0x2D17, 0x10B7);
   (0x2D18, 0x10B8); (0x2D19, 0x10B9); (0x2D1A, 0x10BA); (0x2D1B, 0x10BB); (0x2D1C, 0x10BC);
   (0x2D1D, 0x10BD); (0x2D1E, 0x10BE); (0x2D1F, 0x10BF); (0x2D20, 0x10C0); (0x2D21, 0x10C1);
   (0x2D22, 0x10C2); (0x2D23, 0x10C3); (0x2D24, 0x10C4); (0x2D25, 0x10C5); (0x2D27, 0x10C7);
   (0x2D2D, 0x10CD); (0xA641, 0xA640); (0xA643, 0xA642); (0xA645, 0xA644); (0xA647, 0xA646);
   (0xA649, 0xA648); (0xA64B, 0xA64A); (0xA64D, 0xA64C); (0xA64F, 0xA64E); (0xA651, 0xA650);
   (0xA653, 0xA652); (0xA655, 0xA654); (0xA657, 0xA656); (0xA659, 0xA658); (0xA65B, 0xA65A)
  ]%N.

(** Code points U+A65D .. U+ABAE. *)
Definition simple_upper_6 : list (N * N) :=
  [
   (0xA65D, 0xA65C); (0xA65F, 0xA65E); (0xA661, 0xA660); (0xA663, 0xA662); (0xA665, 0xA664);
   (0xA667, 0xA666); (0xA669, 0xA668); (0xA66B, 0xA66A); (0xA66D, 0xA66C); (0xA681, 0xA680);
   (0xA683, 0xA682); (0xA685, 0xA684); (0xA687, 0xA686); (0xA689, 0xA688); (0xA68B, 0xA68A);
   (0xA68D, 0xA68C); (0xA68F, 0xA68E); (0xA691, 0xA690); (0xA693, 0xA692); (0xA695, 0xA694);
   (0xA697, 0xA696); (0xA699, 0xA698); (0xA69B, 0xA69A); (0xA723, 0xA722); (0xA725, 0xA724);
   (0xA727, 0xA726); (0xA729, 0xA728); (0xA72B, 0xA72A); (0xA72D, 0xA72C); (0xA72F, 0xA72E);
   (0xA733, 0xA732); (0xA735, 0xA734); (0xA737, 0xA736); (0xA739, 0xA738); (0xA73B, 0xA73A);
   (0xA73D, 0xA73C); (0xA73F, 0xA73E); (0xA741, 0xA740); (0xA743, 0xA742); (0xA745, 0xA744);
   (0xA747, 0xA746); (0xA749, 0xA748); (0xA74B, 0xA74A); (0xA74D, 0xA74C); (0xA74F, 0xA74E);
   (0xA751, 0xA750); (0xA753, 0xA752); (0xA755, 0xA754); (0xA757, 0xA756); (0xA759, 0xA758);
   (0xA75B, 0xA75A); (0xA75D, 0xA75C); (0xA75F, 0xA75E); (0xA761, 0xA760); (0xA763, 0xA762);
   (0xA765, 0xA764); (0xA767, 0xA766); (0xA769, 0xA768); (0xA76B, 0xA76A); (0xA76D, 0xA76C);
   (0xA76F, 0xA76E); (0xA77A, 0xA779); (0xA77C, 0xA77B); (0xA77F, 0xA77E); (0xA781, 0xA780);
   (0xA783, 0xA782); (0xA785, 0xA784); (0xA787, 0xA786); (0xA78C, 0xA78B); (0xA791, 0xA790);
   (0xA793, 0xA792); (0xA794, 0xA7C4); (0xA797, 0xA796); (0xA799, 0xA798); (0xA79B, 0xA79A);
   (0xA79D, 0xA79C); (0xA79F, 0xA79E); (0xA7A1, 0xA7A0); (0xA7A3, 0xA7A2); (0xA7A5, 0xA7A4);
   (0xA7A7, 0xA7A6); (0xA7A9, 0xA7A8); (0xA7B5, 0xA7B4); (0xA7B7, 0xA7B6); (0xA7B9, 0xA7B8);
   (0xA7BB, 0xA7BA); (0xA7BD, 0xA7BC); (0xA7BF, 0xA7BE); (0xA7C1, 0xA7C0); (0xA7C3, 0xA7C2);
   (0xA7C8, 0xA7C7); (0xA7CA, 0xA7C9); (0xA7D1, 0xA7D0); (0xA7D7, 0xA7D6); (0xA7D9, 0xA7D8);
   (0xA7F6, 0xA7F5); (0xAB53, 0xA7B3); (0xAB70, 0x13A0); (0xAB71, 0x13A1); (0xAB72, 0x13A2);
   (0xAB73, 0x13A3); (0xAB74, 0x13A4); (0xAB75, 0x13A5); (0xAB76, 0x13A6); (0xAB77, 0x13A7);
   (0xAB78, 0x13A8); (0xAB79, 0x13A9); (0xAB7A, 0x13AA); (0xAB7B, 0x13AB); (0xAB7C, 0x13AC);
   (0xAB7D, 0x13AD); (0xAB7E, 0x13AE); (0xAB7F, 0x13AF); (0xAB80, 0x13B0); (0xAB81, 0x13B1);
   (0xAB82, 0x13B2); (0xAB83, 0x13B3); (0xAB84, 0x13B4); (0xAB85, 0x13B5); (0xAB86, 0x13B6);
   (0xAB87, 0x13B7); (0xAB88, 0x13B8); (0xAB89, 0x13B9); (0xAB8A, 0x13BA); (0xAB8B, 0x13BB);
   (0xAB8C, 0x13BC); (0xAB8D, 0x13BD); (0xAB8E, 0x13BE); (0xAB8F, 0x13BF); (0xAB90, 0x13C0);
   (0xAB91, 0x13C1); (0xAB92, 0x13C2); (0xAB93, 0x13C3); (0xAB94, 0x13C4); (0xAB95, 0x13C5);
   (0xAB96, 0x13C6); (0xAB97, 0x13C7); (0xAB98, 0x13C8); (0xAB99, 0x13C9); (0xAB9A, 0x13CA);
   (0xAB9B, 0x13CB); (0xAB9C, 0x13CC); (0xAB9D, 0x13CD); (0xAB9E, 0x13CE); (0xAB9F, 0x13CF);
   (0xABA0, 0x13D0); (0xABA1, 0x13D1); (0xABA2, 0x13D2); (0xABA3, 0x13D3); (0xABA4, 0x13D4);
   (0xABA5, 0x13D5); (0xABA6, 0x13D6); (0xABA7, 0x13D7); (0xABA8, 0x13D8); (0xABA9, 0x13D9);
   (0xABAA, 0x13DA); (0xABAB, 0x13DB); (0xABAC, 0x13DC); (0xABAD, 0x13DD); (0xABAE, 0x13DE)
  ]%N.

(** Code points U+ABAF .. U+10CC5. *)
Definition simple_upper_7 : list (N * N) :=
  [
   (0xABAF, 0x13DF); (0xABB0, 0x13E0); (0xABB1, 0x13E1); (0xABB2, 0x13E2); (0xABB3, 0x13E3);
   (0xABB4, 0x13E4); (0xABB5, 0x13E5); (0xABB6, 0x13E6); (0xABB7, 0x13E7); (0xABB8, 0x13E8);
   (0xABB9, 0x13E9); (0xABBA, 0x13EA); (0xABBB, 0x13EB); (0xABBC, 0x13EC); (0xABBD, 0x13ED);
   (0xABBE, 0x13EE); (0xABBF, 0x13EF); (0xFF41, 0xFF21); (0xFF42, 0xFF22); (0xFF43, 0xFF23);
   (0xFF44, 0xFF24); (0xFF45, 0xFF25); (0xFF46, 0xFF26); (0xFF47, 0xFF27); (0xFF48, 0xFF28);
   (0xFF49, 0xFF29); (0xFF4A, 0xFF2A); (0xFF4B, 0xFF2B); (0xFF4C, 0xFF2C); (0xFF4D, 0xFF2D);
   (0xFF4E, 0xFF2E); (0xFF4F, 0xFF2F); (0xFF50, 0xFF30); (0xFF51, 0xFF31); (0xFF52, 0xFF32);
   (0xFF53, 0xFF33); (0xFF54, 0xFF34); (0xFF55, 0xFF35); (0xFF56, 0xFF36); (0xFF57, 0xFF37);
   (0xFF58, 0xFF38); (0xFF59, 0xFF39); (0xFF5A, 0xFF3A); (0x10428, 0x10400); (0x10429, 0x10401);
   (0x1042A, 0x10402); (0x1042B, 0x10403); (0x1042C, 0x10404); (0x1042D, 0x10405); (0x1042E, 0x10406);
   (0x1042F, 0x10407); (0x10430, 0x10408); (0x10431, 0x10409); (0x10432, 0x1040A); (0x10433, 0x1040B);
   (0x10434, 0x1040C); (0x10435, 0x1040D); (0x10436, 0x1040E); (0x10437, 0x1040F); (0x10438, 0x10410);
   (0x10439, 0x10411); (0x1043A, 0x10412); (0x1043B, 0x10413); (0x1043C, 0x10414); (0x1043D, 0x10415);
   (0x1043E, 0x10416); (0x1043F, 0x10417); (0x10440, 0x10418); (0x10441, 0x10419); (0x10442, 0x1041A);
   (0x10443, 0x1041B); (0x10444, 0x1041C); (0x10445, 0x1041D); (0x10446, 0x1041E); (0x10447, 0x1041F);
   (0x10448, 0x10420); (0x10449, 0x10421); (0x1044A, 0x10422); (0x1044B, 0x10423); (0x1044C, 0x10424);
   (0x1044D, 0x10425); (0x1044E, 0x10426); (0x1044F, 0x10427); (0x104D8, 0x104B0); (0x104D9, 0x104B1);
   (0x104DA, 0x104B2); (0x104DB, 0x104B3); (0x104DC, 0x104B4); (0x104DD, 0x104B5); (0x104DE, 0x104B6);
   (0x104DF, 0x104B7); (0x104E0, 0x104B8); (0x104E1, 0x104B9); (0x104E2, 0x104BA); (0x104E3, 0x104BB);
   (0x104E4, 0x104BC); (0x104E5, 0x104BD); (0x104E6, 0x104BE); (0x104E7, 0x104BF); (0x104E8, 0x104C0);
   (0x104E9, 0x104C1); (0x104EA, 0x104C2); (0x104EB, 0x104C3); (0x104EC, 0x104C4); (0x104ED, 0x104C5);
   (0x104EE, 0x104C6); (0x104EF, 0x104C7); (0x104F0, 0x104C8); (0x104F1, 0x104C9); (0x104F2, 0x104CA);
   (0x104F3, 0x104CB); (0x104F4, 0x104CC); (0x104F5, 0x104CD); (0x104F6, 0x104CE); (0x104F7, 0x104CF);
   (0x104F8, 0x104D0); (0x104F9, 0x104D1); (0x104FA, 0x104D2); (0x104FB, 0x104D3); (0x10597, 0x10570);
   (0x10598, 0x10571); (0x10599, 0x10572); (0x1059A, 0x10573); (0x1059B, 0x10574); (0x1059C, 0x10575);
   (0x1059D, 0x10576); (0x1059E, 0x10577); (0x1059F, 0x10578); (0x105A0, 0x10579); (0x105A1, 0x1057A);
   (0x105A3, 0x1057C); (0x105A4, 0x1057D); (0x105A5, 0x1057E); (0x105A6, 0x1057F); (0x105A7, 0x10580);
   (0x105A8, 0x10581); (0x105A9, 0x10582); (0x105AA, 0x10583); (0x105AB, 0x10584); (0x105AC, 0x10585);
   (0x105AD, 0x10586); (0x105AE, 0x10587); (0x105AF, 0x10588); (0x105B0, 0x10589); (0x105B1, 0x1058A);
   (0x105B3, 0x1058C); (0x105B4, 0x1058D); (0x105B5, 0x1058E); (0x105B6, 0x1058F); (0x105B7, 0x10590);
   (0x105B8, 0x10591); (0x105B9, 0x10592); (0x105BB, 0x10594); (0x105BC, 0x10595); (0x10CC0, 0x10C80);
   (0x10CC1, 0x10C81); (0x10CC2, 0x10C82); (0x10CC3, 0x10C83); (0x10CC4, 0x10C84); (0x10CC5, 0x10C85)
  ]%N.

(** Code points U+10CC6 .. U+1E943. *)
Definition simple_upper_8 : list (N * N) :=
  [
   (0x10CC6, 0x10C86); (0x10CC7, 0x10C87); (0x10CC8, 0x10C88); (0x10CC9, 0x10C89); (0x10CCA, 0x10C8A);
   (0x10CCB, 0x10C8B); (0x10CCC, 0x10C8C); (0x10CCD, 0x10C8D); (0x10CCE, 0x10C8E); (0x10CCF, 0x10C8F);
   (0x10CD0, 0x10C90); (0x10CD1, 0x10C91); (0x10CD2, 0x10C92); (0x10CD3, 0x10C93); (0x10CD4, 0x10C94);
   (0x10CD5, 0x10C95); (0x10CD6, 0x10C96); (0x10CD7, 0x10C97); (0x10CD8, 0x10C98); (0x10CD9, 0x10C99);
   (0x10CDA, 0x10C9A); (0x10CDB, 0x10C9B); (0x10CDC, 0x10C9C); (0x10CDD, 0x10C9D); (0x10CDE, 0x10C9E);
   (0x10CDF, 0x10C9F); (0x10CE0, 0x10CA0); (0x10CE1, 0x10CA1); (0x10CE2, 0x10CA2); (0x10CE3, 0x10CA3);
   (0x10CE4, 0x10CA4); (0x10CE5, 0x10CA5); (0x10CE6, 0x10CA6); (0x10CE7, 0x10CA7); (0x10CE8, 0x10CA8);
   (0x10CE9, 0x10CA9); (0x10CEA, 0x10CAA); (0x10CEB, 0x10CAB); (0x10CEC, 0x10CAC); (0x10CED, 0x10CAD);
   (0x10CEE, 0x10CAE); (0x10CEF, 0x10CAF); (0x10CF0, 0x10CB0); (0x10CF1, 0x10CB1); (0x10CF2, 0x10CB2);
   (0x118C0, 0x118A0); (0x118C1, 0x118A1); (0x118C2, 0x118A2); (0x118C3, 0x118A3); (0x118C4, 0x118A4);
   (0x118C5, 0x118A5); (0x118C6, 0x118A6); (0x118C7, 0x118A7); (0x118C8, 0x118A8); (0x118C9, 0x118A9);
   (0x118CA, 0x118AA); (0x118CB, 0x118AB); (0x118CC, 0x118AC); (0x118CD, 0x118AD); (0x118CE, 0x118AE);
   (0x118CF, 0x118AF); (0x118D0, 0x118B0); (0x118D1, 0x118B1); (0x118D2, 0x118B2); (0x118D3, 0x118B3);
   (0x118D4, 0x118B4); (0x118D5, 0x118B5); (0x118D6, 0x118B6); (0x118D7, 0x118B7); (0x118D8, 0x118B8);
   (0x118D9, 0x118B9); (0x118DA, 0x118BA); (0x118DB, 0x118BB); (0x118DC, 0x118BC); (0x118DD, 0x118BD);
   (0x118DE, 0x118BE); (0x118DF, 0x118BF); (0x16E60, 0x16E40); (0x16E61, 0x16E41); (0x16E62, 0x16E42);
   (0x16E63, 0x16E43); (0x16E64, 0x16E44); (0x16E65, 0x16E45); (0x16E66, 0x16E46); (0x16E67, 0x16E47);
   (0x16E68, 0x16E48); (0x16E69, 0x16E49); (0x16E6A, 0x16E4A); (0x16E6B, 0x16E4B); (0x16E6C, 0x16E4C);
   (0x16E6D, 0x16E4D); (0x16E6E, 0x16E4E); (0x16E6F, 0x16E4F); (0x16E70, 0x16E50); (0x16E71, 0x16E51);
   (0x16E72, 0x16E52); (0x16E73, 0x16E53); (0x16E74, 0x16E54); (0x16E75, 0x16E55); (0x16E76, 0x16E56);
   (0x16E77, 0x16E57); (0x16E78, 0x16E58); (0x16E79, 0x16E59); (0x16E7A, 0x16E5A); (0x16E7B, 0x16E5B);
   (0x16E7C, 0x16E5C); (0x16E7D, 0x16E5D); (0x16E7E, 0x16E5E); (0x16E7F, 0x16E5F); (0x1E922, 0x1E900);
   (0x1E923, 0x1E901); (0x1E924, 0x1E902); (0x1E925, 0x1E903); (0x1E926, 0x1E904); (0x1E927, 0x1E905);
   (0x1E928, 0x1E906); (0x1E929, 0x1E907); (0x1E92A, 0x1E908); (0x1E92B, 0x1E909); (0x1E92C, 0x1E90A);
   (0x1E92D, 0x1E90B); (0x1E92E, 0x1E90C); (0x1E92F, 0x1E90D); (0x1E930, 0x1E90E); (0x1E931, 0x1E90F);
   (0x1E932, 0x1E910); (0x1E933, 0x1E911); (0x1E934, 0x1E912); (0x1E935, 0x1E913); (0x1E936, 0x1E914);
   (0x1E937, 0x1E915); (0x1E938, 0x1E916); (0x1E939, 0x1E917); (0x1E93A, 0x1E918); (0x1E93B, 0x1E919);
   (0x1E93C, 0x1E91A); (0x1E93D, 0x1E91B); (0x1E93E, 0x1E91C); (0x1E93F, 0x1E91D); (0x1E940, 0x1E91E);
   (0x1E941, 0x1E91F); (0x1E942, 0x1E920); (0x1E943, 0x1E921)
  ]%N.

Definition simple_upper : list (N * N) :=
  simple_upper_0
  ++ simple_upper_1
  ++ simple_upper_2
  ++ simple_upper_3
  ++ simple_upper_4
  ++ simple_upper_5
  ++ simple_upper_6
  ++ simple_upper_7
  ++ simple_upper_8.

Definition special_upper : list (N * list N) :=
  [
   (0x00DF, [0x0053; 0x0053]); (0x0149, [0x02BC; 0x004E]); (0x01F0, [0x004A; 0x030C]);
   (0x0390, [0x0399; 0x0308; 0x0301]); (0x03B0, [0x03A5; 0x0308; 0x0301]); (0x0587, [0x0535; 0x0552]);
   (0x1E96, [0x0048; 0x0331]); (0x1E97, [0x0054; 0x0308]); (0x1E98, [0x0057; 0x030A]);
   (0x1E99, [0x0059; 0x030A]); (0x1E9A, [0x0041; 0x02BE]); (0x1F50, [0x03A5; 0x0313]);
   (0x1F52, [0x03A5; 0x0313; 0x0300]); (0x1F54, [0x03A5; 0x0313; 0x0301]); (0x1F56, [0x03A5; 0x0313; 0x0342]);
   (0x1F80, [0x1F08; 0x0399]); (0x1F81, [0x1F09; 0x0399]); (0x1F82, [0x1F0A; 0x0399]);
   (0x1F83, [0x1F0B; 0x0399]); (0x1F84, [0x1F0C; 0x0399]); (0x1F85, [0x1F0D; 0x0399]);
   (0x1F86, [0x1F0E; 0x0399]); (0x1F87, [0x1F0F; 0x0399]); (0x1F88, [0x1F08; 0x0399]);
   (0x1F89, [0x1F09; 0x0399]); (0x1F8A, [0x1F0A; 0x0399]); (0x1F8B, [0x1F0B; 0x0399]);
   (0x1F8C, [0x1F0C; 0x0399]); (0x1F8D, [0x1F0D; 0x0399]); (0x1F8E, [0x1F0E; 0x0399]);
   (0x1F8F, [0x1F0F; 0x0399]); (0x1F90, [0x1F28; 0x0399]); (0x1F91, [0x1F29; 0x0399]);
   (0x1F92, [0x1F2A; 0x0399]); (0x1F93, [0x1F2B; 0x0399]); (0x1F94, [0x1F2C; 0x0399]);
   (0x1F95, [0x1F2D; 0x0399]); (0x1F96, [0x1F2E; 0x0399]); (0x1F97, [0x1F2F; 0x0399]);
   (0x1F98, [0x1F28; 0x0399]); (0x1F99, [0x1F29; 0x0399]); (0x1F9A, [0x1F2A; 0x0399]);
   (0x1F9B, [0x1F2B; 0x0399]); (0x1F9C, [0x1F2C; 0x0399]); (0x1F9D, [0x1F2D; 0x0399]);
   (0x1F9E, [0x1F2E; 0x0399]); (0x1F9F, [0x1F2F; 0x0399]); (0x1FA0, [0x1F68; 0x0399]);
   (0x1FA1, [0x1F69; 0x0399]); (0x1FA2, [0x1F6A; 0x0399]); (0x1FA3, [0x1F6B; 0x0399]);
   (0x1FA4, [0x1F6C; 0x0399]); (0x1FA5, [0x1F6D; 0x0399]); (0x1FA6, [0x1F6E; 0x0399]);
   (0x1FA7, [0x1F6F; 0x0399]); (0x1FA8, [0x1F68; 0x0399]); (0x1FA9, [0x1F69; 0x0399]);
   (0x1FAA, [0x1F6A; 0x0399]); (0x1FAB, [0x1F6B; 0x0399]); (0x1FAC, [0x1F6C; 0x0399]);
   (0x1FAD, [0x1F6D; 0x0399]); (0x1FAE, [0x1F6E; 0x0399]); (0x1FAF, [0x1F6F; 0x0399]);
   (0x1FB2, [0x1FBA; 0x0399]); (0x1FB3, [0x0391; 0x0399]); (0x1FB4, [0x0386; 0x0399]);
   (0x1FB6, [0x0391; 0x0342]); (0x1FB7, [0x0391; 0x0342; 0x0399]); (0x1FBC, [0x0391; 0x0399]);
   (0x1FC2, [0x1FCA; 0x0399]); (0x1FC3, [0x0397; 0x0399]); (0x1FC4, [0x0389; 0x0399]);
   (0x1FC6, [0x0397; 0x0342]); (0x1FC7, [0x0397; 0x0342; 0x0399]); (0x1FCC, [0x0397; 0x0399]);
   (0x1FD2, [0x0399; 0x0308; 0x0300]); (0x1FD3, [0x0399; 0x0308; 0x0301]); (0x1FD6, [0x0399; 0x0342]);
   (0x1FD7, [0x0399; 0x0308; 0x0342]); (0x1FE2, [0x03A5; 0x0308; 0x0300]); (0x1FE3, [0x03A5; 0x0308; 0x0301]);
   (0x1FE4, [0x03A1; 0x0313]); (0x1FE6, [0x03A5; 0x0342]); (0x1FE7, [0x03A5; 0x0308; 0x0342]);
   (0x1FF2, [0x1FFA; 0x0399]); (0x1FF3, [0x03A9; 0x0399]); (0x1FF4, [0x038F; 0x0399]);
   (0x1FF6, [0x03A9; 0x0342]); (0x1FF7, [0x03A9; 0x0342; 0x0399]); (0x1FFC, [0x03A9; 0x0399]);
   (0xFB00, [0x0046; 0x0046]); (0xFB01, [0x0046; 0x0049]); (0xFB02, [0x0046; 0x004C]);
   (0xFB03, [0x0046; 0x0046; 0x0049]); (0xFB04, [0x0046; 0x0046; 0x004C]); (0xFB05, [0x0053; 0x0054]);
   (0xFB06, [0x0053; 0x0054]); (0xFB13, [0x0544; 0x0546]); (0xFB14, [0x0544; 0x0535]);
   (0xFB15, [0x0544; 0x053B]); (0xFB16, [0x054E; 0x0546]); (0xFB17, [0x0544; 0x053D])
  ]%N.

Fixpoint assoc {V : Type} (k : N) (t : list (N * V)) : option V :=
  match t with
  | [] => None
  | (k', v) :: t' => if N.eqb k k' then Some v else assoc k t'
  end.

(** [_PyUnicode_ToUpperFull]. *)
Definition to_upper_full (c : char) : pystr :=
  match assoc c special_upper with
  | Some l => l
  | None =>
      match assoc c simple_upper with
      | Some u => [u]
      | None => [c]
      end
  end.

Fixpoint str_upper (s : pystr) : pystr :=
  match s with
  | [] => []
  | c :: s' => to_upper_full c ++ str_upper s'
  end.

(** ** Plate normaliser *)

(** The character class [[\s-]]. *)
Definition ws_or_hyphen (c : char) : bool := is_space c || is_hyphen c.

(** [re.sub(pattern, repl, s)] for a pattern that is one character class:
    the matches are exactly the characters of the class, each replaced by
    [repl]; the other characters are copied. *)
Fixpoint re_sub (cls : char -> bool) (repl : pystr) (s : pystr) : pystr :=
  match s with
  | [] => []
  | c :: s' => (if cls c then repl else [c]) ++ re_sub cls repl s'
  end.

Definition normalize_plate (plate : pystr) : pystr :=
  str_upper (re_sub ws_or_hyphen [] plate).

(** The normaliser as the specification words it: remove every whitespace
    character and every hyphen, and nothing else, then upper-case. *)
Definition kept (c : char) : bool := negb (is_space c) && negb (is_hyphen c).

Definition spec_normalize (s : pystr) : pystr :=
  str_upper (filter kept s).

Set Warnings "-register-all".

(** ** Python values

    What [response.json()] can yield, and the [None] of [Optional]. *)
Inductive pyval : Type :=
| PNone
| PBool (b : bool)
| PInt (z : Z)
| PFloat (f : spec_float)
| PStr (s : pystr)
| PList (l : list pyval)
| PDict (d : list (pystr * pyval)).

(** A [dict] with string keys, as its items; a key occurs once. *)
Definition pydict := list (pystr * pyval).

Fixpoint dict_lookup (d : pydict) (key : pystr) : option pyval :=
  match d with
  | [] => None
  | (k, v) :: d' => if pystr_eqb key k then Some v else dict_lookup d' key
  end.

(** [d.get(key)]: the value under [key], [None] when the key is missing. *)
Definition dict_get (d : pydict) (key : pystr) : pyval :=
  match dict_lookup d key with
  | Some v => v
  | None => PNone
  end.

(** [bool(v)], the test of [if v:]. *)
Definition truthy (v : pyval) : bool :=
  match v with
  | PNone => false
  | PBool b => b
  | PInt z => negb (Z.eqb z 0)
  | PFloat (S754_zero _) => false
  | PFloat _ => true
  | PStr s => str_truthy s
  | PList [] => false
  | PList (_ :: _) => true
  | PDict [] => false
  | PDict (_ :: _) => true
  end.

(** ** Exceptions, results and the handler monad *)

Inductive exn : Type :=
| HTTPException (status_code : Z) (detail : pystr)
| AssertionError
| AttributeError
| JSONDecodeError
| ValidationError
| TransportError.

Inductive result (A : Type) : Type :=
| Ok (a : A)
| Raise (e : exn).

Arguments Ok {A} a.
Arguments Raise {A} e.

(** A request handed to [_http.post]. *)
Record http_request : Type := {
  url : pystr;
  headers : list (pystr * pystr);
  json_payload : pydict
}.

(** The part of an [httpx.Response] the service reads; [json] is [None]
    when [response.json()] raises. *)
Record http_response : Type := {
  status_code : Z;
  text : pystr;
  json : option pyval
}.

Inductive post_outcome : Type :=
| Response (r : http_response)
| Failure.

(** The upstream collaborator behind the shared [httpx.AsyncClient]. *)
Definition client := http_request -> post_outcome.

(** A handler reads and extends the list of requests sent upstream. *)
Definition IO (A : Type) : Type :=
  list http_request -> result A * list http_request.

Definition ret {A : Type} (a : A) : IO A := fun sent => (Ok a, sent).

Definition raise {A : Type} (e : exn) : IO A := fun sent => (Raise e, sent).

Definition bind {A B : Type} (m : IO A) (k : A -> IO B) : IO B :=
  fun sent =>
    match m sent with
    | (Ok a, sent') => k a sent'
    | (Raise e, sent') => (Raise e, sent')
    end.

Definition lift {A : Type} (r : result A) : IO A := fun sent => (r, sent).

Declare Scope io_scope.
Delimit Scope io_scope with io.
Notation "x <- m ;; k" := (bind m (fun x => k))
  (at level 100, m at next level, right associativity) : io_scope.
Open Scope io_scope.

(** [await _http.post(url, headers=..., json=...)]. *)
Definition post (c : client) (rq : http_request) : IO http_response :=
  fun sent =>
    match c rq with
    | Response r => (Ok r, sent ++ [rq])
    | Failure => (Raise TransportError, sent ++ [rq])
    end.

(** [response.json()]. *)
Definition response_json (r : http_response) : IO pyval :=
  match json r with
  | Some v => ret v
  | None => raise JSONDecodeError
  end.

(** ** Configuration and data models *)

(** The process environment of a request: the credential read at start-up,
    the shared client (absent before start-up and after shutdown), and the
    conversions the installed pydantic applies to a field value that is
    neither [None] nor of the declared type. *)
Record env : Type := {
  DVLA_API_KEY : option pystr;
  _http : option client;
  coerce_str : pyval -> option pystr;
  coerce_int : pyval -> option Z
}.

Definition DVLA_URL : pystr :=
  lit "https://driver-vehicle-licensing.api.gov.uk/vehicle-enquiry/v1/vehicles".

Record LookupRequest : Type := {
  plate : pystr
}.

Record LookupResponse : Type := {
  make : option pystr;
  model : option pystr;
  colour : option pystr;
  year_of_manufacture : option Z;
  fuel_type : option pystr
}.

(** Validation of a field declared [Optional[str]]. *)
Definition validate_opt_str (e : env) (v : pyval) : result (option pystr) :=
  match v with
  | PNone => Ok None
  | PStr s => Ok (Some s)
  | _ =>
      match coerce_str e v with
      | Some s => Ok (Some s)
      | None => Raise ValidationError
      end
  end.

(** Validation of a field declared [Optional[int]]. *)
Definition validate_opt_int (e : env) (v : pyval) : result (option Z) :=
  match v with
  | PNone => Ok None
  | PInt z => Ok (Some z)
  | _ =>
      match coerce_int e v with
      | Some z => Ok (Some z)
      | None => Raise ValidationError
      end
  end.

(** [LookupResponse(make=..., model=..., colour=..., year_of_manufacture=...,
    fuel_type=...)]. *)
Definition new_LookupResponse (e : env)
    (make_v model_v colour_v year_v fuel_v : pyval) : IO LookupResponse :=
  mk <- lift (validate_opt_str e make_v) ;;
  md <- lift (validate_opt_str e model_v) ;;
  cl <- lift (validate_opt_str e colour_v) ;;
  yr <- lift (validate_opt_int e year_v) ;;
  fl <- lift (validate_opt_str e fuel_v) ;;
  ret {| make := mk; model := md; colour := cl;
         year_of_manufacture := yr; fuel_type := fl |}.

(** [vehicle.get(key)]: of the values [response.json()] yields, only a
    [dict] has the method. *)
Definition py_get (vehicle : pyval) (key : pystr) : IO pyval :=
  match vehicle with
  | PDict d => ret (dict_get d key)
  | _ => raise AttributeError
  end.

(** ** The upstream client *)

(** The request [call_dvla] builds for a plate. *)
Definition dvla_request (key plate : pystr) : http_request :=
  {| url := DVLA_URL;
     headers := [(lit "x-api-key", key);
                 (lit "Content-Type", lit "application/json")];
     json_payload := [(lit "registrationNumber", PStr (normalize_plate plate))] |}.

Definition call_dvla (e : env) (plate : pystr) : IO pyval :=
  match DVLA_API_KEY e with
  | None => ret PNone
  | Some key =>
      if negb (str_truthy key) then ret PNone
      else
        match _http e with
        | None => raise AssertionError
        | Some http =>
            response <- post http (dvla_request key plate) ;;
            if Z.eqb (status_code response) 200 then response_json response
            else if Z.eqb (status_code response) 400
                    || Z.eqb (status_code response) 404 then ret PNone
            else raise (HTTPException (status_code response)
                          (lit "DVLA error: " ++ str_prefix 200 (text response)))
        end
  end.

(** ** Endpoints *)

Definition root : IO pyval :=
  ret (PDict [(lit "service", PStr (lit "UK VRM Lookup"));
              (lit "version", PStr (lit "1.0.0"));
              (lit "docs", PStr (lit "/docs"))]).

Definition health : IO pyval :=
  ret (PDict [(lit "ok", PBool true)]).

Definition lookup (e : env) (request : LookupRequest) : IO LookupResponse :=
  let plate := str_strip (plate request) in
  if negb (str_truthy plate) then
    raise (HTTPException 400 (lit "plate required"))
  else
    vehicle <- call_dvla e plate ;;
    if truthy vehicle then
      make_v <- py_get vehicle (lit "make") ;;
      model_v <- py_get vehicle (lit "model") ;;
      colour_v <- py_get vehicle (lit "colour") ;;
      year_v <- py_get vehicle (lit "yearOfManufacture") ;;
      fuel_v <- py_get vehicle (lit "fuelType") ;;
      new_LookupResponse e make_v model_v colour_v year_v fuel_v
    else
      raise (HTTPException 404 (lit "Vehicle not found")).

(** ** Vocabulary of the specification *)

(** A credential is configured when the key is set and non-empty: the guard
    [if not DVLA_API_KEY] of [call_dvla]. *)
Definition credential_configured (e : env) : bool :=
  match DVLA_API_KEY e with
  | Some key => str_truthy key
  | None => false
  end.

(** The upstream call for the plate [p] is made with the credential [key]
    and answered by [r]: a credential is configured, the shared client is
    up, and the upstream service replies [r] to the request for [p]. *)
Definition upstream_replies
    (e : env) (p key : pystr) (r : http_response) : Prop :=
  DVLA_API_KEY e = Some key /\ str_truthy key = true /\
  exists http, _http e = Some http /\ http (dvla_request key p) = Response r.

(** A field of an upstream record read as a string / as an integer; a field
    that is missing or [null] is absent. *)
Definition record_str (d : pydict) (key : pystr) : option pystr :=
  match dict_lookup d key with
  | Some (PStr s) => Some s
  | _ => None
  end.

Definition record_int (d : pydict) (key : pystr) : option Z :=
  match dict_lookup d key with
  | Some (PInt z) => Some z
  | _ => None
  end.

Definition field_is_str (d : pydict) (key : pystr) : bool :=
  match dict_lookup d key with
  | None | Some PNone | Some (PStr _) => true
  | Some _ => false
  end.

Definition field_is_int (d : pydict) (key : pystr) : bool :=
  match dict_lookup d key with
  | None | Some PNone | Some (PInt _) => true
  | Some _ => false
  end.

(** An upstream vehicle record: a JSON object whose five known fields, where
    present, have the types of the upstream contract.  Other fields are
    unconstrained. *)
Definition vehicle_record (d : pydict) : bool :=
  field_is_str d (lit "make") && field_is_str d (lit "model")
  && field_is_str d (lit "colour") && field_is_int d (lit "yearOfManufacture")
  && field_is_str d (lit "fuelType").

(** The response the specification describes for a record. *)
Definition extract (d : pydict) : LookupResponse :=
  {| make := record_str d (lit "make");
     model := record_str d (lit "model");
     colour := record_str d (lit "colour");
     year_of_manufacture := record_int d (lit "yearOfManufacture");
     fuel_type := record_str d (lit "fuelType") |}.

(** ** Sample deployments *)

(** An upstream that answers every request with [r]. *)
Definition stub (r : http_response) : client := fun _ => Response r.

(** A pydantic that converts nothing. *)
Definition strict_env (key : option pystr) (http : option client) : env :=
  {| DVLA_API_KEY := key; _http := http;
     coerce_str := fun _ => None; coerce_int := fun _ => None |}.

Definition sample_key : pystr := lit "secret".

Definition stub_env (r : http_response) : env :=
  strict_env (Some sample_key) (Some (stub r)).

Definition quoted (s : pystr) : pystr := [0x22%N] ++ s ++ [0x22%N].

(** [{"make": "FORD", "yearOfManufacture": 2015, "taxStatus": "Taxed"}] *)
Definition ford_record : pydict :=
  [(lit "make", PStr (lit "FORD"));
   (lit "yearOfManufacture", PInt 2015);
   (lit "taxStatus", PStr (lit "Taxed"))].

Definition ford_response : http_response :=
  {| status_code := 200;
     text := lit "{" ++ quoted (lit "make") ++ lit ": " ++ quoted (lit "FORD")
             ++ lit ", " ++ quoted (lit "yearOfManufacture") ++ lit ": 2015, "
             ++ quoted (lit "taxStatus") ++ lit ": " ++ quoted (lit "Taxed")
             ++ lit "}";
     json := Some (PDict ford_record) |}.

(** Status 200 with the body [{}]. *)
Definition empty_record_response : http_response :=
  {| status_code := 200; text := lit "{}"; json := Some (PDict []) |}.

Definition not_found_response : http_response :=
  {| status_code := 404; text := lit "{}"; json := Some (PDict []) |}.

Definition server_error_response : http_response :=
  {| status_code := 500; text := lit "Internal Server Error"; json := None |}.

Definition sample_request : LookupRequest := {| plate := lit " ab12 cde " |}.

(** ** Further vocabulary for the handlers *)

(** ASCII, and the classical upper-casing of an ASCII character. *)
Definition is_ascii (c : char) : bool := (c <? 0x80)%N.

Definition ascii_upper (c : char) : char :=
  if ((0x61 <=? c) && (c <=? 0x7A))%N then (c - 0x20)%N else c.

(** What [lookup] does with the answer of [call_dvla]: the part of the
    handler after [vehicle = await call_dvla(plate)]. *)
Definition map_vehicle (e : env) (vehicle : pyval) : IO LookupResponse :=
  if truthy vehicle then
    make_v <- py_get vehicle (lit "make") ;;
    model_v <- py_get vehicle (lit "model") ;;
    colour_v <- py_get vehicle (lit "colour") ;;
    year_v <- py_get vehicle (lit "yearOfManufacture") ;;
    fuel_v <- py_get vehicle (lit "fuelType") ;;
    new_LookupResponse e make_v model_v colour_v year_v fuel_v
  else
    raise (HTTPException 404 (lit "Vehicle not found")).

(** The five keys the handler reads from a record. *)
Definition known_fields : list pystr :=
  [lit "make"; lit "model"; lit "colour"; lit "yearOfManufacture";
   lit "fuelType"].

(** ** Configuration read at import *)

(** [os.environ], after [load_dotenv()]. *)
Definition environ := list (pystr * pystr).

Fixpoint environ_lookup (env_vars : environ) (name : pystr) : option pystr :=
  match env_vars with
  | [] => None
  | (k, v) :: rest => if pystr_eqb name k then Some v else environ_lookup rest name
  end.

(** [os.getenv(name, default)]. *)
Definition os_getenv (env_vars : environ) (name default : pystr) : pystr :=
  match environ_lookup env_vars name with
  | Some v => v
  | None => default
  end.

Definition comma : char := 0x2C%N.

(** [s.split(sep)] for a one-character separator: the pieces between the
    occurrences of [sep], one more than there are occurrences. *)
Fixpoint str_split (sep : char) (s : pystr) : list pystr :=
  match s with
  | [] => [[]]
  | c :: s' =>
      if N.eqb c sep then [] :: str_split sep s'
      else
        match str_split sep s' with
        | [] => [[c]]
        | piece :: pieces => (c :: piece) :: pieces
        end
  end.

(** [sep.join(pieces)]. *)
Fixpoint str_join (sep : pystr) (pieces : list pystr) : pystr :=
  match pieces with
  | [] => []
  | [piece] => piece
  | piece :: rest => piece ++ sep ++ str_join sep rest
  end.

(** [ALLOWED_ORIGINS = os.getenv("ALLOWED_ORIGINS", "")]. *)
Definition ALLOWED_ORIGINS (env_vars : environ) : pystr :=
  os_getenv env_vars (lit "ALLOWED_ORIGINS") [].

(** [[o.strip() for o in ALLOWED_ORIGINS.split(",") if o.strip()]]. *)
Definition ALLOWED_ORIGINS_LIST (allowed_origins : pystr) : list pystr :=
  map str_strip
    (filter (fun o => str_truthy (str_strip o)) (str_split comma allowed_origins)).

Definition default_origins : list pystr :=
  [lit "http://localhost:5173";
   lit "http://localhost:5174";
   lit "http://127.0.0.1:5173";
   lit "http://127.0.0.1:5174"].

(** [list({*xs})]: the elements of [xs] without repetition, in an order the
    language does not fix.  [set_listing xs l] holds when [l] is one of the
    lists the expression can yield. *)
Definition set_listing (xs l : list pystr) : Prop :=
  NoDup l /\ forall o, In o l <-> In o xs.

Definition pystr_eq_dec : forall a b : pystr, {a = b} + {a <> b} :=
  list_eq_dec N.eq_dec.

(** One such list: repetitions dropped, order otherwise kept. *)
Definition set_listing_example (xs : list pystr) : list pystr :=
  nodup pystr_eq_dec xs.

(** [cors_origins = list({*default_origins, *ALLOWED_ORIGINS_LIST})]. *)
Definition cors_origins (allowed_origins : pystr) (l : list pystr) : Prop :=
  set_listing (default_origins ++ ALLOWED_ORIGINS_LIST allowed_origins) l.

(** [allow_origins=cors_origins or ["http://localhost:5173"]]. *)
Definition allow_origins (origins : list pystr) : list pystr :=
  match origins with
  | [] => [lit "http://localhost:5173"]
  | _ :: _ => origins
  end.

(** ** Client lifetime *)

(** [lifespan] up to its [yield]: the shared client is created. *)
Definition lifespan_startup (c : client) (e : env) : env :=
  {| DVLA_API_KEY := DVLA_API_KEY e; _http := Some c;
     coerce_str := coerce_str e; coerce_int := coerce_int e |}.

(** [lifespan] after its [yield]: the client, if any, is closed and the
    global is reset. *)
Definition lifespan_shutdown (e : env) : env :=
  {| DVLA_API_KEY := DVLA_API_KEY e; _http := None;
     coerce_str := coerce_str e; coerce_int := coerce_int e |}.

(** ** Further sample data *)

Definition list_body_response : http_response :=
  {| status_code := 200; text := lit "[1]"; json := Some (PList [PInt 1]) |}.

Definition null_body_response : http_response :=
  {| status_code := 200; text := lit "null"; json := Some PNone |}.

Definition bad_json_response : http_response :=
  {| status_code := 200; text := lit "<html>"; json := None |}.

(** [{"make": 7}] *)
Definition mistyped_response : http_response :=
  {| status_code := 200;
     text := lit "{" ++ quoted (lit "make") ++ lit ": 7}";
     json := Some (PDict [(lit "make", PInt 7)]) |}.

(** [{"make": "FORD", "yearOfManufacture": 2015}]: [ford_record] without its
    unused field. *)
Definition ford_core_response : http_response :=
  {| status_code := 200;
     text := lit "{" ++ quoted (lit "make") ++ lit ": " ++ quoted (lit "FORD")
             ++ lit ", " ++ quoted (lit "yearOfManufacture") ++ lit ": 2015}";
     json := Some (PDict [(lit "make", PStr (lit "FORD"));
                          (lit "yearOfManufacture", PInt 2015)]) |}.

(** An upstream that cannot be reached. *)
Definition down_client : client := fun _ => Failure.

(** [isinstance(v, dict)]. *)
Definition is_dict (v : pyval) : bool :=
  match v with
  | PDict _ => true
  | _ => false
  end.

(** A plate of separators only. *)
Definition hyphen_request : LookupRequest := {| plate := lit " - - " |}.

(** An ALLOWED_ORIGINS value that repeats a default origin. *)
Definition sample_origins : pystr :=
  lit " https://a.example ,http://localhost:5173,".

(** ** Proof steps for the sample deployments *)

(** [upstream_replies] for a [stub_env]. *)
Ltac stub_replies :=
  split; [reflexivity | split; [reflexivity | eexists; split; reflexivity]].

(** A concrete plate that does not trim to the empty string. *)
Ltac nonblank := vm_compute; discriminate.

(** * Properties *)

(** ** Strings *)

Lemma pystr_eqb_eq (a b : pystr) : pystr_eqb a b = true -> a = b.
Proof.
  revert b. induction a as [|x a IH]; intros [|y b] H; simpl in H;
    try discriminate; [reflexivity|].
  apply andb_prop in H. destruct H as [Hx Hab].
  apply N.eqb_eq in Hx. f_equal; auto.
Qed.

Lemma pystr_eqb_refl (a : pystr) : pystr_eqb a a = true.
Proof.
  induction a as [|x a IH]; simpl; [reflexivity|].
  now rewrite N.eqb_refl.
Qed.

Lemma kept_ws_or_hyphen (c : char) : kept c = negb (ws_or_hyphen c).
Proof. unfold kept, ws_or_hyphen. now rewrite negb_orb. Qed.

Lemma is_space_not_kept (c : char) : is_space c = true -> kept c = false.
Proof. unfold kept. now intros ->. Qed.

(** Substituting the empty string for a class deletes its characters. *)
Lemma re_sub_nil_filter (cls : char -> bool) (s : pystr) :
  re_sub cls [] s = filter (fun c => negb (cls c)) s.
Proof.
  induction s as [|c s IH]; simpl; [reflexivity|].
  destruct (cls c); simpl; now rewrite IH.
Qed.

Lemma re_sub_plate_class (s : pystr) :
  re_sub ws_or_hyphen [] s = filter kept s.
Proof.
  rewrite re_sub_nil_filter. apply filter_ext.
  intros c. symmetry. apply kept_ws_or_hyphen.
Qed.

Lemma filter_all_true {A : Type} (p : A -> bool) (l : list A) :
  forallb p l = true -> filter p l = l.
Proof.
  induction l as [|x l IH]; simpl; [reflexivity|].
  intros H. apply andb_prop in H. destruct H as [-> Hl].
  now rewrite IH.
Qed.

Lemma forallb_filter_self {A : Type} (p : A -> bool) (l : list A) :
  forallb p (filter p l) = true.
Proof.
  induction l as [|x l IH]; simpl; [reflexivity|].
  destruct (p x) eqn:E; simpl; [now rewrite E|assumption].
Qed.

(** *** The upper-case tables *)

Lemma assoc_In {V : Type} (k : N) (t : list (N * V)) (v : V) :
  assoc k t = Some v -> In (k, v) t.
Proof.
  induction t as [|[k' v'] t IH]; simpl; [discriminate|].
  destruct (N.eqb_spec k k') as [->|_].
  - intros [= ->]. now left.
  - intros H. right. auto.
Qed.

(** Every special mapping yields a string that upper-casing leaves alone and
    that has no whitespace and no hyphen. *)
Lemma special_upper_closed :
  forallb (fun kv => pystr_eqb (str_upper (snd kv)) (snd kv)
                     && forallb kept (snd kv)) special_upper = true.
Proof. vm_compute. reflexivity. Qed.

(** So does every simple mapping. *)
Lemma simple_upper_closed :
  forallb (fun kv => pystr_eqb (to_upper_full (snd kv)) [snd kv]
                     && kept (snd kv)) simple_upper = true.
Proof. vm_compute. reflexivity. Qed.

Lemma to_upper_full_cases (c : char) :
  (exists l, In (c, l) special_upper /\ to_upper_full c = l)
  \/ (exists u, In (c, u) simple_upper /\ to_upper_full c = [u])
  \/ to_upper_full c = [c].
Proof.
  unfold to_upper_full.
  destruct (assoc c special_upper) as [l|] eqn:Es.
  - left. exists l. split; [now apply assoc_In|reflexivity].
  - destruct (assoc c simple_upper) as [u|] eqn:Eu.
    + right. left. exists u. split; [now apply assoc_In|reflexivity].
    + right. right. reflexivity.
Qed.

Lemma str_upper_app (a b : pystr) :
  str_upper (a ++ b) = str_upper a ++ str_upper b.
Proof.
  induction a as [|c a IH]; simpl; [reflexivity|].
  now rewrite IH, app_assoc.
Qed.

Lemma str_upper_single (c : char) : str_upper [c] = to_upper_full c.
Proof. simpl. apply app_nil_r. Qed.

Lemma to_upper_full_idem (c : char) :
  str_upper (to_upper_full c) = to_upper_full c.
Proof.
  destruct (to_upper_full_cases c) as [(l & Hin & E)|[(u & Hin & E)|E]].
  - rewrite E.
    pose proof (proj1 (forallb_forall _ _) special_upper_closed _ Hin) as H.
    simpl in H. apply andb_prop in H. now apply pystr_eqb_eq.
  - rewrite E, str_upper_single.
    pose proof (proj1 (forallb_forall _ _) simple_upper_closed _ Hin) as H.
    simpl in H. apply andb_prop in H. now apply pystr_eqb_eq.
  - rewrite E at 1. rewrite str_upper_single. reflexivity.
Qed.

Lemma to_upper_full_kept (c : char) :
  kept c = true -> forallb kept (to_upper_full c) = true.
Proof.
  intros Hc.
  destruct (to_upper_full_cases c) as [(l & Hin & E)|[(u & Hin & E)|E]];
    rewrite E.
  - pose proof (proj1 (forallb_forall _ _) special_upper_closed _ Hin) as H.
    simpl in H. now apply andb_prop in H.
  - pose proof (proj1 (forallb_forall _ _) simple_upper_closed _ Hin) as H.
    simpl in H. apply andb_prop in H. destruct H as [_ H].
    simpl. now rewrite H.
  - simpl. now rewrite Hc.
Qed.

Lemma str_upper_idem (s : pystr) : str_upper (str_upper s) = str_upper s.
Proof.
  induction s as [|c s IH]; simpl; [reflexivity|].
  now rewrite str_upper_app, to_upper_full_idem, IH.
Qed.

Lemma str_upper_kept (s : pystr) :
  forallb kept s = true -> forallb kept (str_upper s) = true.
Proof.
  induction s as [|c s IH]; simpl; [reflexivity|].
  intros H. apply andb_prop in H. destruct H as [Hc Hs].
  rewrite forallb_app, to_upper_full_kept by assumption. auto.
Qed.

(** *** Trimming *)

Lemma filter_kept_drop_while (s : pystr) :
  filter kept (drop_while is_space s) = filter kept s.
Proof.
  induction s as [|c s IH]; simpl; [reflexivity|].
  destruct (is_space c) eqn:E; [|reflexivity].
  now rewrite (is_space_not_kept c E).
Qed.

Lemma filter_rev {A : Type} (p : A -> bool) (l : list A) :
  filter p (rev l) = rev (filter p l).
Proof.
  induction l as [|x l IH]; simpl; [reflexivity|].
  rewrite filter_app, IH. simpl.
  destruct (p x); simpl; [reflexivity|apply app_nil_r].
Qed.

Lemma filter_kept_strip (s : pystr) :
  filter kept (str_strip s) = filter kept s.
Proof.
  unfold str_strip, str_rstrip, str_lstrip.
  rewrite filter_rev, filter_kept_drop_while, <- filter_rev, rev_involutive.
  apply filter_kept_drop_while.
Qed.

Lemma drop_while_all (p : char -> bool) (s : pystr) :
  forallb p s = true -> drop_while p s = [].
Proof.
  induction s as [|c s IH]; simpl; [reflexivity|].
  intros H. apply andb_prop in H. destruct H as [-> Hs]. auto.
Qed.

(** A string of whitespace only, the empty string included, trims to the
    empty string. *)
Lemma str_strip_blank (s : pystr) :
  forallb is_space s = true -> str_strip s = [].
Proof.
  intros H. unfold str_strip, str_lstrip.
  now rewrite (drop_while_all _ _ H).
Qed.

(** ** The plate normaliser *)

(** C6. For every input string the normaliser returns the string obtained by
    removing every whitespace character and every hyphen, and no other
    character, and upper-casing the remainder.  It is a total function:
    [normalize("ab 12-cde") = "AB12CDE"] and [normalize("A-B 1-2") = "AB12"]. *)
Theorem normalize_plate_spec (s : pystr) :
  normalize_plate s = spec_normalize s
  /\ (forall c, In c (filter kept s) <->
                In c s /\ is_space c = false /\ c <> hyphen)
  /\ normalize_plate (lit "ab 12-cde") = lit "AB12CDE"
  /\ normalize_plate (lit "A-B 1-2") = lit "AB12".
Proof.
  split; [|split; [|split]].
  - unfold normalize_plate, spec_normalize. now rewrite re_sub_plate_class.
  - intros c. rewrite filter_In. unfold kept, is_hyphen.
    rewrite andb_true_iff, !negb_true_iff, N.eqb_neq. tauto.
  - vm_compute. reflexivity.
  - vm_compute. reflexivity.
Qed.

(** C7. Normalisation is idempotent: [normalize(normalize(s)) = normalize(s)]
    for every string [s]; in particular
    [normalize("AB12CDE") = normalize("ab 12-cde") = "AB12CDE"]. *)
Theorem normalize_plate_idempotent (s : pystr) :
  normalize_plate (normalize_plate s) = normalize_plate s
  /\ normalize_plate (lit "AB12CDE") = normalize_plate (lit "ab 12-cde")
  /\ normalize_plate (lit "ab 12-cde") = lit "AB12CDE".
Proof.
  split; [|split].
  - unfold normalize_plate. rewrite !re_sub_plate_class.
    rewrite (filter_all_true kept (str_upper (filter kept s))).
    + apply str_upper_idem.
    + apply str_upper_kept, forallb_filter_self.
  - vm_compute. reflexivity.
  - vm_compute. reflexivity.
Qed.

(** C9. For every string [p], [normalize(trim(p)) = normalize(p)]: trimming
    in the lookup handler never changes the registration number that
    [call_dvla] puts in the upstream payload. *)
Theorem normalize_plate_strip (p : pystr) :
  normalize_plate (str_strip p) = normalize_plate p
  /\ (forall key, json_payload (dvla_request key (str_strip p))
                  = json_payload (dvla_request key p)).
Proof.
  assert (E : normalize_plate (str_strip p) = normalize_plate p).
  { unfold normalize_plate. rewrite !re_sub_plate_class.
    now rewrite filter_kept_strip. }
  split; [exact E|].
  intros key. unfold dvla_request. simpl. now rewrite E.
Qed.

(** ** The handler monad *)

Lemma bind_ret {A B : Type} (a : A) (k : A -> IO B) : bind (ret a) k = k a.
Proof. reflexivity. Qed.

Lemma bind_lift_ok {A B : Type} (a : A) (k : A -> IO B) :
  bind (lift (Ok a)) k = k a.
Proof. reflexivity. Qed.

(** ** The upstream client *)

(** Without a credential the client answers [None] and sends nothing. *)
Lemma call_dvla_no_credential (e : env) (p : pystr) sent :
  credential_configured e = false -> call_dvla e p sent = (Ok PNone, sent).
Proof.
  unfold credential_configured, call_dvla.
  destruct (DVLA_API_KEY e) as [key|]; [|reflexivity].
  now intros ->.
Qed.

(** With a credential and an answer [r], the client sends one request and
    maps the status of [r]. *)
Lemma call_dvla_reply (e : env) (p key : pystr) (r : http_response) sent :
  upstream_replies e p key r ->
  call_dvla e p sent =
    (if Z.eqb (status_code r) 200 then response_json r
     else if Z.eqb (status_code r) 400 || Z.eqb (status_code r) 404
          then ret PNone
     else raise (HTTPException (status_code r)
                   (lit "DVLA error: " ++ str_prefix 200 (text r))))
      (sent ++ [dvla_request key p]).
Proof.
  intros (Hkey & Htruthy & http & Hhttp & Hr).
  unfold call_dvla. rewrite Hkey, Htruthy, Hhttp. simpl negb. cbv iota.
  unfold bind, post. rewrite Hr. reflexivity.
Qed.

Lemma call_dvla_not_found (e : env) (p key : pystr) (r : http_response) sent :
  upstream_replies e p key r ->
  status_code r = 400%Z \/ status_code r = 404%Z ->
  call_dvla e p sent = (Ok PNone, sent ++ [dvla_request key p]).
Proof.
  intros Hup Hst. rewrite (call_dvla_reply e p key r sent Hup).
  destruct Hst as [-> | ->]; reflexivity.
Qed.

(** ** The lookup handler *)

Lemma str_truthy_true (s : pystr) : s <> [] -> str_truthy s = true.
Proof. destruct s; [congruence|reflexivity]. Qed.

(** Past the guard, the handler is the upstream call followed by the
    mapping of its answer. *)
Lemma lookup_validated (e : env) (request : LookupRequest) sent :
  str_strip (plate request) <> [] ->
  lookup e request sent =
    match call_dvla e (str_strip (plate request)) sent with
    | (Ok vehicle, sent') =>
        if truthy vehicle then
          (make_v <- py_get vehicle (lit "make") ;;
           model_v <- py_get vehicle (lit "model") ;;
           colour_v <- py_get vehicle (lit "colour") ;;
           year_v <- py_get vehicle (lit "yearOfManufacture") ;;
           fuel_v <- py_get vehicle (lit "fuelType") ;;
           new_LookupResponse e make_v model_v colour_v year_v fuel_v) sent'
        else (Raise (HTTPException 404 (lit "Vehicle not found")), sent')
    | (Raise x, sent') => (Raise x, sent')
    end.
Proof.
  intros H. unfold lookup. cbv zeta. rewrite (str_truthy_true _ H).
  cbn [negb]. cbv beta iota. unfold bind at 1.
  destruct (call_dvla e (str_strip (plate request)) sent) as [[vehicle|x] sent'];
    [|reflexivity].
  destruct (truthy vehicle); reflexivity.
Qed.

(** A lookup whose upstream call yields no record is a 404. *)
Lemma lookup_no_record (e : env) (request : LookupRequest) sent sent' :
  str_strip (plate request) <> [] ->
  call_dvla e (str_strip (plate request)) sent = (Ok PNone, sent') ->
  lookup e request sent =
    (Raise (HTTPException 404 (lit "Vehicle not found")), sent').
Proof.
  intros Hp Hc. rewrite (lookup_validated e request sent Hp), Hc. reflexivity.
Qed.

Lemma validate_record_str (e : env) (d : pydict) (key : pystr) :
  field_is_str d key = true ->
  validate_opt_str e (dict_get d key) = Ok (record_str d key).
Proof.
  unfold field_is_str, dict_get, record_str.
  destruct (dict_lookup d key) as [[]|]; simpl; intros H;
    try discriminate; reflexivity.
Qed.

Lemma validate_record_int (e : env) (d : pydict) (key : pystr) :
  field_is_int d key = true ->
  validate_opt_int e (dict_get d key) = Ok (record_int d key).
Proof.
  unfold field_is_int, dict_get, record_int.
  destruct (dict_lookup d key) as [[]|]; simpl; intros H;
    try discriminate; reflexivity.
Qed.

(** A field a record does not have is absent from the response. *)
Lemma record_str_missing (d : pydict) (key : pystr) :
  dict_lookup d key = None -> record_str d key = None.
Proof. unfold record_str. now intros ->. Qed.

Lemma record_int_missing (d : pydict) (key : pystr) :
  dict_lookup d key = None -> record_int d key = None.
Proof. unfold record_int. now intros ->. Qed.

(** The mapping of a non-empty, well-typed record. *)
Lemma lookup_record (e : env) (request : LookupRequest) (d : pydict) sent sent' :
  str_strip (plate request) <> [] ->
  call_dvla e (str_strip (plate request)) sent = (Ok (PDict d), sent') ->
  d <> [] -> vehicle_record d = true ->
  lookup e request sent = (Ok (extract d), sent').
Proof.
  intros Hp Hc Hd Hrec.
  rewrite (lookup_validated e request sent Hp), Hc.
  destruct d as [|kv d']; [congruence|]. cbn [truthy].
  set (rec := kv :: d') in *.
  unfold vehicle_record in Hrec.
  repeat (apply andb_prop in Hrec; destruct Hrec as [Hrec ?]).
  unfold py_get. rewrite !bind_ret. unfold new_LookupResponse.
  rewrite !validate_record_str, validate_record_int by assumption.
  rewrite !bind_lift_ok. reflexivity.
Qed.

(** A record without fields is falsy, so the handler takes the not-found
    branch. *)
Lemma lookup_falsy_record (e : env) (request : LookupRequest) sent sent' :
  str_strip (plate request) <> [] ->
  call_dvla e (str_strip (plate request)) sent = (Ok (PDict []), sent') ->
  lookup e request sent =
    (Raise (HTTPException 404 (lit "Vehicle not found")), sent').
Proof.
  intros Hp Hc. rewrite (lookup_validated e request sent Hp), Hc. reflexivity.
Qed.

Lemma call_dvla_ok (e : env) (p key : pystr) (r : http_response) v sent :
  upstream_replies e p key r ->
  status_code r = 200%Z -> json r = Some v ->
  call_dvla e p sent = (Ok v, sent ++ [dvla_request key p]).
Proof.
  intros Hup Hst Hjs. rewrite (call_dvla_reply e p key r sent Hup), Hst.
  unfold response_json. now rewrite Hjs.
Qed.

(** ** Claims about the lookup operation *)

(** C2. For every lookup request whose plate is empty after trimming leading
    and trailing whitespace (the empty string and whitespace-only strings
    included), the lookup fails with a client error of status 400 and message
    "plate required", and no upstream call is made. *)
Theorem lookup_blank_plate
    (e : env) (request : LookupRequest) (sent : list http_request) :
  str_strip (plate request) = [] \/ forallb is_space (plate request) = true ->
  lookup e request sent =
    (Raise (HTTPException 400 (lit "plate required")), sent).
Proof.
  intros H.
  assert (E : str_strip (plate request) = []).
  { destruct H as [H|H]; [exact H|now apply str_strip_blank]. }
  unfold lookup. cbv zeta. rewrite E. reflexivity.
Qed.

Lemma lookup_blank_plate_witness :
  lookup (stub_env ford_response) {| plate := lit "   " |} [] =
    (Raise (HTTPException 400 (lit "plate required")), []).
Proof.
  apply (lookup_blank_plate (stub_env ford_response) {| plate := lit "   " |} []).
  right. vm_compute. reflexivity.
Defined.

(** C3. For every lookup request, if the upstream call returns status 400 or
    status 404, the upstream client reports no record (not an error), and the
    lookup fails with a not-found error of status 404 and message
    "Vehicle not found". *)
Theorem lookup_upstream_not_found
    (e : env) (request : LookupRequest) (key : pystr) (r : http_response)
    (sent : list http_request) :
  str_strip (plate request) <> [] ->
  upstream_replies e (str_strip (plate request)) key r ->
  status_code r = 400%Z \/ status_code r = 404%Z ->
  call_dvla e (str_strip (plate request)) sent =
    (Ok PNone, sent ++ [dvla_request key (str_strip (plate request))])
  /\ lookup e request sent =
       (Raise (HTTPException 404 (lit "Vehicle not found")),
        sent ++ [dvla_request key (str_strip (plate request))]).
Proof.
  intros Hp Hup Hst.
  pose proof (call_dvla_not_found e _ key r sent Hup Hst) as Hc.
  split; [exact Hc|]. now apply lookup_no_record.
Qed.

Lemma lookup_upstream_not_found_witness :
  call_dvla (stub_env not_found_response) (str_strip (plate sample_request)) [] =
    (Ok PNone, [] ++ [dvla_request sample_key (str_strip (plate sample_request))])
  /\ lookup (stub_env not_found_response) sample_request [] =
       (Raise (HTTPException 404 (lit "Vehicle not found")),
        [] ++ [dvla_request sample_key (str_strip (plate sample_request))]).
Proof.
  apply (lookup_upstream_not_found (stub_env not_found_response) sample_request
           sample_key not_found_response []).
  - nonblank.
  - stub_replies.
  - right. reflexivity.
Defined.

(** C4. For every lookup request, if the upstream call returns a status other
    than 200, 400 and 404, the lookup fails with an upstream-failure error
    that carries the upstream status code as its own status and includes a
    snippet of the upstream response body truncated to at most 200
    characters. *)
Theorem lookup_upstream_failure
    (e : env) (request : LookupRequest) (key : pystr) (r : http_response)
    (sent : list http_request) :
  str_strip (plate request) <> [] ->
  upstream_replies e (str_strip (plate request)) key r ->
  status_code r <> 200%Z -> status_code r <> 400%Z -> status_code r <> 404%Z ->
  lookup e request sent =
    (Raise (HTTPException (status_code r)
              (lit "DVLA error: " ++ str_prefix 200 (text r))),
     sent ++ [dvla_request key (str_strip (plate request))])
  /\ List.length (str_prefix 200 (text r)) <= 200
  /\ str_prefix 200 (text r) ++ skipn 200 (text r) = text r
  /\ (List.length (text r) <= 200 -> str_prefix 200 (text r) = text r).
Proof.
  intros Hp Hup H200 H400 H404. split; [|split; [|split]].
  - rewrite (lookup_validated e request sent Hp).
    rewrite (call_dvla_reply e _ key r sent Hup).
    apply Z.eqb_neq in H200, H400, H404.
    rewrite H200, H400, H404. reflexivity.
  - unfold str_prefix. apply firstn_le_length.
  - unfold str_prefix. apply firstn_skipn.
  - intros Hlen. unfold str_prefix. now apply firstn_all2.
Qed.

Lemma lookup_upstream_failure_witness :
  lookup (stub_env server_error_response) sample_request [] =
    (Raise (HTTPException (status_code server_error_response)
              (lit "DVLA error: " ++ str_prefix 200 (text server_error_response))),
     [] ++ [dvla_request sample_key (str_strip (plate sample_request))])
  /\ List.length (str_prefix 200 (text server_error_response)) <= 200
  /\ str_prefix 200 (text server_error_response)
     ++ skipn 200 (text server_error_response) = text server_error_response
  /\ (List.length (text server_error_response) <= 200 ->
      str_prefix 200 (text server_error_response) = text server_error_response).
Proof.
  apply (lookup_upstream_failure (stub_env server_error_response) sample_request
           sample_key server_error_response []).
  - nonblank.
  - stub_replies.
  - discriminate.
  - discriminate.
  - discriminate.
Defined.

(** C5. When no API credential is configured, for every lookup request with a
    non-empty trimmed plate, the upstream client short-circuits to "no record"
    without making any network call, and the lookup fails with status 404 and
    message "Vehicle not found", the same outcome as an upstream not-found. *)
Theorem lookup_no_credential
    (e : env) (request : LookupRequest) (sent : list http_request) :
  credential_configured e = false ->
  str_strip (plate request) <> [] ->
  call_dvla e (str_strip (plate request)) sent = (Ok PNone, sent)
  /\ lookup e request sent =
       (Raise (HTTPException 404 (lit "Vehicle not found")), sent)
  /\ (forall e' key r sent',
        upstream_replies e' (str_strip (plate request)) key r ->
        status_code r = 400%Z \/ status_code r = 404%Z ->
        fst (lookup e' request sent') = fst (lookup e request sent)).
Proof.
  intros Hcred Hp.
  pose proof (call_dvla_no_credential e (str_strip (plate request)) sent Hcred)
    as Hc.
  pose proof (lookup_no_record e request sent sent Hp Hc) as Hl.
  split; [exact Hc|split; [exact Hl|]].
  intros e' key r sent' Hup Hst.
  rewrite Hl.
  rewrite (lookup_no_record e' request sent' _ Hp
             (call_dvla_not_found e' _ key r sent' Hup Hst)).
  reflexivity.
Qed.

Lemma lookup_no_credential_witness :
  call_dvla (strict_env None None) (str_strip (plate sample_request)) [] =
    (Ok PNone, [])
  /\ lookup (strict_env None None) sample_request [] =
       (Raise (HTTPException 404 (lit "Vehicle not found")), [])
  /\ (forall e' key r sent',
        upstream_replies e' (str_strip (plate sample_request)) key r ->
        status_code r = 400%Z \/ status_code r = 404%Z ->
        fst (lookup e' sample_request sent')
        = fst (lookup (strict_env None None) sample_request [])).
Proof.
  apply (lookup_no_credential (strict_env None None) sample_request []).
  - reflexivity.
  - nonblank.
Defined.

(** C8. If the upstream call returns status 200 whose JSON body is an empty
    object, the lookup does not return a success response of five absent
    fields: the success branch requires a truthy record, so the lookup fails
    with status 404 and message "Vehicle not found". *)
Theorem lookup_empty_record
    (e : env) (request : LookupRequest) (key : pystr) (r : http_response)
    (sent : list http_request) :
  str_strip (plate request) <> [] ->
  upstream_replies e (str_strip (plate request)) key r ->
  status_code r = 200%Z ->
  json r = Some (PDict []) ->
  lookup e request sent =
    (Raise (HTTPException 404 (lit "Vehicle not found")),
     sent ++ [dvla_request key (str_strip (plate request))])
  /\ (forall resp sent', lookup e request sent <> (Ok resp, sent')).
Proof.
  intros Hp Hup Hst Hjs.
  assert (E : lookup e request sent =
    (Raise (HTTPException 404 (lit "Vehicle not found")),
     sent ++ [dvla_request key (str_strip (plate request))])).
  { apply lookup_falsy_record; [exact Hp|].
    now apply (call_dvla_ok e _ key r). }
  split; [exact E|]. intros resp sent'. rewrite E. discriminate.
Qed.

Lemma lookup_empty_record_witness :
  lookup (stub_env empty_record_response) sample_request [] =
    (Raise (HTTPException 404 (lit "Vehicle not found")),
     [] ++ [dvla_request sample_key (str_strip (plate sample_request))])
  /\ (forall resp sent',
        lookup (stub_env empty_record_response) sample_request []
        <> (Ok resp, sent')).
Proof.
  apply (lookup_empty_record (stub_env empty_record_response) sample_request
           sample_key empty_record_response []).
  - nonblank.
  - stub_replies.
  - reflexivity.
  - reflexivity.
Defined.

(** ** Metadata and health *)

(** C10. The root and health operations take no input, have no failure mode
    and no side effect, and return the same fixed values at every
    invocation: root returns [{service: "UK VRM Lookup", version: "1.0.0",
    docs: "/docs"}] and health returns [{ok: true}]. *)
Theorem root_health_fixed (sent : list http_request) :
  root sent =
    (Ok (PDict [(lit "service", PStr (lit "UK VRM Lookup"));
                (lit "version", PStr (lit "1.0.0"));
                (lit "docs", PStr (lit "/docs"))]), sent)
  /\ health sent = (Ok (PDict [(lit "ok", PBool true)]), sent).
Proof. split; reflexivity. Qed.

(** * Further properties of the code *)

(** ** More on the plate normaliser *)

Lemma special_upper_lengths :
  forallb (fun kv => (1 <=? List.length (snd kv))
                     && (List.length (snd kv) <=? 3)) special_upper = true.
Proof. vm_compute. reflexivity. Qed.

Lemma to_upper_full_length (c : char) :
  1 <= List.length (to_upper_full c) <= 3.
Proof.
  destruct (to_upper_full_cases c) as [(l & Hin & E)|[(u & Hin & E)|E]];
    rewrite E; simpl; try lia.
  pose proof (proj1 (forallb_forall _ _) special_upper_lengths _ Hin) as H.
  cbn [snd] in H. apply andb_prop in H. destruct H as [H1 H3].
  apply Nat.leb_le in H1, H3. split; assumption.
Qed.

Lemma str_upper_length (s : pystr) :
  List.length s <= List.length (str_upper s) <= 3 * List.length s.
Proof.
  induction s as [|c s IH]; simpl; [lia|].
  rewrite length_app. pose proof (to_upper_full_length c). lia.
Qed.

Lemma str_upper_nil_inv (s : pystr) : str_upper s = [] -> s = [].
Proof.
  intros H. pose proof (str_upper_length s) as L. rewrite H in L. simpl in L.
  destruct s; [reflexivity|simpl in L; lia].
Qed.

Lemma filter_kept_nil (s : pystr) :
  filter kept s = [] <-> forallb ws_or_hyphen s = true.
Proof.
  induction s as [|c s IH]; simpl; [tauto|].
  rewrite kept_ws_or_hyphen.
  destruct (ws_or_hyphen c); simpl; [exact IH|].
  split; discriminate.
Qed.

Lemma normalize_plate_filter (s : pystr) :
  normalize_plate s = str_upper (filter kept s).
Proof. unfold normalize_plate. now rewrite re_sub_plate_class. Qed.

(** X1. The normalised plate never contains a whitespace character or a
    hyphen, whatever the input. *)
Theorem normalize_plate_clean (s : pystr) (c : char) :
  In c (normalize_plate s) -> is_space c = false /\ c <> hyphen.
Proof.
  intros Hin.
  assert (H : forallb kept (normalize_plate s) = true).
  { rewrite normalize_plate_filter. apply str_upper_kept, forallb_filter_self. }
  pose proof (proj1 (forallb_forall _ _) H c Hin) as Hc.
  unfold kept, is_hyphen in Hc.
  apply andb_prop in Hc. destruct Hc as [Hs Hh].
  apply negb_true_iff in Hs, Hh. apply N.eqb_neq in Hh. auto.
Qed.

Lemma normalize_plate_clean_witness :
  is_space 0x41%N = false /\ 0x41%N <> hyphen.
Proof.
  apply (normalize_plate_clean (lit "a-b") 0x41%N).
  vm_compute. left. reflexivity.
Defined.

(** X2. Normalisation distributes over concatenation: a plate typed in
    pieces normalises to the pieces' normalisations joined. *)
Theorem normalize_plate_app (a b : pystr) :
  normalize_plate (a ++ b) = normalize_plate a ++ normalize_plate b.
Proof.
  rewrite !normalize_plate_filter, filter_app. apply str_upper_app.
Qed.

Lemma normalize_plate_nil (s : pystr) :
  normalize_plate s = [] <-> forallb ws_or_hyphen s = true.
Proof.
  rewrite normalize_plate_filter, <- filter_kept_nil. split.
  - apply str_upper_nil_inv.
  - now intros ->.
Qed.

(** X3. The normalised plate is empty exactly when every character of the
    input is whitespace or a hyphen (the empty input included); upper-casing
    never deletes a character. *)
Theorem normalize_plate_nil_iff (s : pystr) :
  (normalize_plate s = [] <-> forallb ws_or_hyphen s = true)
  /\ (str_upper s = [] <-> s = []).
Proof.
  split; [apply normalize_plate_nil|]. split.
  - apply str_upper_nil_inv.
  - now intros ->.
Qed.

(** X4. Normalisation keeps at least one and at most three characters for
    every character of the input that is neither whitespace nor a hyphen;
    the output is never more than three times as long as the input. *)
Theorem normalize_plate_length (s : pystr) :
  List.length (filter kept s) <= List.length (normalize_plate s)
  /\ List.length (normalize_plate s) <= 3 * List.length (filter kept s)
  /\ List.length (normalize_plate s) <= 3 * List.length s.
Proof.
  rewrite normalize_plate_filter.
  pose proof (str_upper_length (filter kept s)) as L.
  pose proof (filter_length_le kept s) as F. lia.
Qed.

Lemma to_upper_full_ascii_table :
  forallb (fun n => pystr_eqb (to_upper_full (N.of_nat n))
                      [ascii_upper (N.of_nat n)]) (seq 0 128) = true.
Proof. vm_compute. reflexivity. Qed.

Lemma to_upper_full_ascii (c : char) :
  is_ascii c = true -> to_upper_full c = [ascii_upper c].
Proof.
  unfold is_ascii. intros H. apply N.ltb_lt in H.
  pose proof (proj1 (forallb_forall _ _) to_upper_full_ascii_table
                (N.to_nat c)) as T.
  cbv beta in T. rewrite N2Nat.id in T. apply pystr_eqb_eq, T, in_seq. lia.
Qed.

Lemma str_upper_ascii (s : pystr) :
  forallb is_ascii s = true -> str_upper s = map ascii_upper s.
Proof.
  induction s as [|c s IH]; simpl; [reflexivity|].
  intros H. apply andb_prop in H. destruct H as [Hc Hs].
  now rewrite (to_upper_full_ascii c Hc), IH.
Qed.

Lemma forallb_filter_weaken {A : Type} (p q : A -> bool) (l : list A) :
  forallb p l = true -> forallb p (filter q l) = true.
Proof.
  induction l as [|x l IH]; simpl; [reflexivity|].
  intros H. apply andb_prop in H. destruct H as [Hx Hl].
  destruct (q x); simpl; [rewrite Hx|]; auto.
Qed.

(** X5. On an ASCII input the normaliser is the classical one: the letters
    a-z of the kept characters become A-Z, every other kept character is
    unchanged, and the output has exactly one character per kept
    character. *)
Theorem normalize_plate_ascii (s : pystr) :
  forallb is_ascii s = true ->
  normalize_plate s = map ascii_upper (filter kept s)
  /\ List.length (normalize_plate s) = List.length (filter kept s)
  /\ forallb is_ascii (normalize_plate s) = true.
Proof.
  intros H.
  assert (E : normalize_plate s = map ascii_upper (filter kept s)).
  { rewrite normalize_plate_filter.
    apply str_upper_ascii. now apply forallb_filter_weaken. }
  split; [exact E|]. rewrite E. split; [apply length_map|].
  apply forallb_forall. intros c Hin. apply in_map_iff in Hin.
  destruct Hin as (x & <- & Hx). apply filter_In in Hx. destruct Hx as [Hx _].
  pose proof (proj1 (forallb_forall _ _) H x Hx) as Hax.
  unfold is_ascii, ascii_upper in *. apply N.ltb_lt in Hax. apply N.ltb_lt.
  destruct ((0x61 <=? x) && (x <=? 0x7A))%N; lia.
Qed.

Lemma normalize_plate_ascii_witness :
  normalize_plate (lit "ab 12-cde") =
    map ascii_upper (filter kept (lit "ab 12-cde"))
  /\ List.length (normalize_plate (lit "ab 12-cde"))
     = List.length (filter kept (lit "ab 12-cde"))
  /\ forallb is_ascii (normalize_plate (lit "ab 12-cde")) = true.
Proof.
  apply (normalize_plate_ascii (lit "ab 12-cde")).
  vm_compute. reflexivity.
Defined.

(** ** Trimming *)

Lemma drop_while_split (p : char -> bool) (s : pystr) :
  exists pre, s = pre ++ drop_while p s /\ forallb p pre = true.
Proof.
  induction s as [|c s (pre & E & Hpre)]; simpl.
  - exists []. split; reflexivity.
  - destruct (p c) eqn:Hc.
    + exists (c :: pre). simpl. rewrite Hc, Hpre. split; [now f_equal|reflexivity].
    + exists []. split; reflexivity.
Qed.

Lemma drop_while_head (p : char -> bool) (s : pystr) (c : char) :
  hd_error (drop_while p s) = Some c -> p c = false.
Proof.
  induction s as [|x s IH]; simpl; [discriminate|].
  destruct (p x) eqn:Hx; [exact IH|].
  simpl. now intros [= <-].
Qed.

Lemma drop_while_fix (p : char -> bool) (s : pystr) :
  (forall c, hd_error s = Some c -> p c = false) -> drop_while p s = s.
Proof.
  destruct s as [|x s]; simpl; [reflexivity|].
  intros H. now rewrite (H x eq_refl).
Qed.

Lemma forallb_rev {A : Type} (p : A -> bool) (l : list A) :
  forallb p l = true -> forallb p (rev l) = true.
Proof.
  rewrite !forallb_forall. intros H x Hx. apply H. now apply in_rev.
Qed.

Lemma str_rstrip_split (t : pystr) :
  exists post, t = str_rstrip t ++ post /\ forallb is_space post = true.
Proof.
  unfold str_rstrip.
  destruct (drop_while_split is_space (rev t)) as (q & E & Hq).
  exists (rev q). split; [|now apply forallb_rev].
  rewrite <- rev_app_distr, <- E. symmetry. apply rev_involutive.
Qed.

Lemma str_rstrip_last (t : pystr) (c : char) :
  hd_error (rev (str_rstrip t)) = Some c -> is_space c = false.
Proof.
  unfold str_rstrip. rewrite rev_involutive. apply drop_while_head.
Qed.

Lemma str_strip_first (s : pystr) (c : char) :
  hd_error (str_strip s) = Some c -> is_space c = false.
Proof.
  unfold str_strip. intros H.
  destruct (str_rstrip_split (str_lstrip s)) as (post & E & _).
  apply (drop_while_head is_space s). fold (str_lstrip s). rewrite E.
  destruct (str_rstrip (str_lstrip s)); [discriminate|exact H].
Qed.

Lemma str_strip_last (s : pystr) (c : char) :
  hd_error (rev (str_strip s)) = Some c -> is_space c = false.
Proof. unfold str_strip. apply str_rstrip_last. Qed.

Lemma str_strip_parts (s : pystr) :
  exists pre post,
    s = pre ++ str_strip s ++ post
    /\ forallb is_space pre = true
    /\ forallb is_space post = true
    /\ (forall c, hd_error (str_strip s) = Some c -> is_space c = false)
    /\ (forall c, hd_error (rev (str_strip s)) = Some c -> is_space c = false).
Proof.
  destruct (drop_while_split is_space s) as (pre & Es & Hpre).
  destruct (str_rstrip_split (str_lstrip s)) as (post & Et & Hpost).
  exists pre, post. split; [|split; [exact Hpre|split; [exact Hpost|split]]].
  - unfold str_strip. rewrite <- Et. exact Es.
  - apply str_strip_first.
  - apply str_strip_last.
Qed.

Lemma str_strip_fixed (s : pystr) :
  str_strip (str_strip s) = str_strip s.
Proof.
  set (u := str_strip s).
  assert (L : str_lstrip u = u).
  { apply drop_while_fix. apply str_strip_first. }
  unfold str_strip at 1. rewrite L. unfold str_rstrip.
  rewrite (drop_while_fix is_space (rev u)) by apply str_strip_last.
  apply rev_involutive.
Qed.

Lemma str_strip_In (s : pystr) (c : char) : In c (str_strip s) -> In c s.
Proof.
  destruct (str_strip_parts s) as (pre & post & E & _).
  intros H. rewrite E. apply in_or_app. right. apply in_or_app. now left.
Qed.

(** A character that is not whitespace survives trimming. *)
Lemma str_strip_keeps (s : pystr) (c : char) :
  In c s -> is_space c = false -> In c (str_strip s).
Proof.
  destruct (str_strip_parts s) as (pre & post & E & Hpre & Hpost & _).
  intros Hin Hc. rewrite E in Hin.
  apply in_app_or in Hin. destruct Hin as [Hin|Hin].
  - pose proof (proj1 (forallb_forall _ _) Hpre c Hin). congruence.
  - apply in_app_or in Hin. destruct Hin as [Hin|Hin]; [exact Hin|].
    pose proof (proj1 (forallb_forall _ _) Hpost c Hin). congruence.
Qed.

(** X6. Trimming removes a run of whitespace at each end and nothing else:
    the input is whitespace, then the trimmed string, then whitespace, and
    the trimmed string neither starts nor ends with whitespace. *)
Theorem str_strip_spec (s : pystr) :
  exists pre post,
    s = pre ++ str_strip s ++ post
    /\ forallb is_space pre = true
    /\ forallb is_space post = true
    /\ (forall c, hd_error (str_strip s) = Some c -> is_space c = false)
    /\ (forall c, hd_error (rev (str_strip s)) = Some c -> is_space c = false).
Proof. apply str_strip_parts. Qed.

(** X7. Trimming is idempotent, and a plate is blank after trimming exactly
    when it consists of whitespace only: the test [if not plate] of the
    handler rejects those plates and no others. *)
Theorem str_strip_idempotent (s : pystr) :
  str_strip (str_strip s) = str_strip s
  /\ (str_strip s = [] <-> forallb is_space s = true).
Proof.
  split; [apply str_strip_fixed|]. split; [|apply str_strip_blank].
  intros E. apply forallb_forall. intros c Hc.
  destruct (is_space c) eqn:Hs; [reflexivity|].
  pose proof (str_strip_keeps s c Hc Hs) as Hk. rewrite E in Hk. destruct Hk.
Qed.

(** ** Configuration read at import *)

Lemma str_split_not_nil (sep : char) (s : pystr) : str_split sep s <> [].
Proof.
  destruct s as [|c s]; simpl; [discriminate|].
  destruct (N.eqb c sep); [discriminate|].
  destruct (str_split sep s); discriminate.
Qed.

Lemma str_split_no_sep (sep : char) (s piece : pystr) :
  In piece (str_split sep s) -> ~ In sep piece.
Proof.
  revert piece. induction s as [|c s IH]; simpl; intros piece H.
  - destruct H as [<-|[]]. intros [].
  - destruct (N.eqb_spec c sep) as [->|Hne].
    + destruct H as [<-|H]; [intros []|now apply IH].
    + destruct (str_split sep s) as [|w ws] eqn:E.
      * destruct H as [<-|[]]. intros [H|[]]. congruence.
      * destruct H as [<-|H].
        -- intros [H|H]; [congruence|]. apply (IH w); [now left|exact H].
        -- apply IH. now right.
Qed.

Lemma str_split_In (sep : char) (s piece : pystr) (c : char) :
  In piece (str_split sep s) -> In c piece -> In c s.
Proof.
  revert piece. induction s as [|x s IH]; simpl; intros piece H Hc.
  - destruct H as [<-|[]]. destruct Hc.
  - destruct (N.eqb x sep).
    + destruct H as [<-|H]; [destruct Hc|]. right. now apply (IH piece).
    + destruct (str_split sep s) as [|w ws] eqn:E.
      * destruct H as [<-|[]]. destruct Hc as [->|[]]. now left.
      * destruct H as [<-|H].
        -- destruct Hc as [->|Hc]; [now left|]. right. apply (IH w); [now left|exact Hc].
        -- right. apply (IH piece); [now right|exact Hc].
Qed.

Lemma str_split_covers (sep : char) (s : pystr) (c : char) :
  In c s -> c <> sep -> exists piece, In piece (str_split sep s) /\ In c piece.
Proof.
  induction s as [|x s IH]; simpl; intros Hin Hne; [destruct Hin|].
  destruct (N.eqb_spec x sep) as [->|Hx].
  - destruct Hin as [->|Hin]; [congruence|].
    destruct (IH Hin Hne) as (piece & Hp & Hc).
    exists piece. split; [now right|exact Hc].
  - pose proof (str_split_not_nil sep s) as Hnn.
    destruct (str_split sep s) as [|w ws]; [congruence|].
    destruct Hin as [->|Hin].
    + exists (c :: w). split; now left.
    + destruct (IH Hin Hne) as (piece & [<-|Hp] & Hc).
      * exists (x :: w). split; [now left|now right].
      * exists piece. split; [now right|exact Hc].
Qed.

Lemma str_split_join_step (sep : char) (piece rest : pystr) :
  ~ In sep piece ->
  str_split sep (piece ++ sep :: rest) = piece :: str_split sep rest.
Proof.
  induction piece as [|c piece IH]; simpl; intros H.
  - now rewrite N.eqb_refl.
  - destruct (N.eqb_spec c sep) as [->|Hne]; [exfalso; apply H; now left|].
    rewrite IH by (intros Hin; apply H; now right). reflexivity.
Qed.

Lemma str_split_whole (sep : char) (piece : pystr) :
  ~ In sep piece -> str_split sep piece = [piece].
Proof.
  induction piece as [|c piece IH]; simpl; intros H; [reflexivity|].
  destruct (N.eqb_spec c sep) as [->|Hne]; [exfalso; apply H; now left|].
  rewrite IH by (intros Hin; apply H; now right). reflexivity.
Qed.

(** Splitting undoes joining, for pieces without the separator. *)
Lemma str_split_join (sep : char) (pieces : list pystr) :
  pieces <> [] ->
  (forall piece, In piece pieces -> ~ In sep piece) ->
  str_split sep (str_join [sep] pieces) = pieces.
Proof.
  induction pieces as [|piece rest IH]; [congruence|].
  intros _ H. destruct rest as [|next rest].
  - simpl. apply str_split_whole. apply H. now left.
  - assert (IH' : str_split sep (str_join [sep] (next :: rest)) = next :: rest).
    { apply IH; [discriminate|]. intros p Hp. apply H. now right. }
    change (str_join [sep] (piece :: next :: rest))
      with (piece ++ sep :: str_join [sep] (next :: rest)).
    rewrite str_split_join_step by (apply H; now left).
    now rewrite IH'.
Qed.

(** X8. Every origin read from ALLOWED_ORIGINS is non-empty, has no
    whitespace at either end and contains no comma. *)
Theorem ALLOWED_ORIGINS_LIST_clean (allowed_origins o : pystr) :
  In o (ALLOWED_ORIGINS_LIST allowed_origins) ->
  o <> [] /\ str_strip o = o /\ ~ In comma o
  /\ (forall c, hd_error o = Some c -> is_space c = false)
  /\ (forall c, hd_error (rev o) = Some c -> is_space c = false).
Proof.
  unfold ALLOWED_ORIGINS_LIST. intros H. apply in_map_iff in H.
  destruct H as (x & <- & Hx). apply filter_In in Hx. destruct Hx as [Hx Ht].
  split; [|split; [|split; [|split]]].
  - intros E. rewrite E in Ht. discriminate.
  - apply str_strip_fixed.
  - intros Hc. apply (str_split_no_sep comma allowed_origins x Hx).
    now apply str_strip_In.
  - apply str_strip_first.
  - apply str_strip_last.
Qed.

Lemma ALLOWED_ORIGINS_LIST_clean_witness :
  lit "https://a.example" <> []
  /\ str_strip (lit "https://a.example") = lit "https://a.example"
  /\ ~ In comma (lit "https://a.example")
  /\ (forall c, hd_error (lit "https://a.example") = Some c -> is_space c = false)
  /\ (forall c, hd_error (rev (lit "https://a.example")) = Some c ->
                is_space c = false).
Proof.
  apply (ALLOWED_ORIGINS_LIST_clean (lit " https://a.example , ,https://b.example")
           (lit "https://a.example")).
  vm_compute. left. reflexivity.
Defined.

(** X9. Reading a comma-joined list of comma-free strings gives the strings
    back trimmed, without those that are blank; a list of non-empty, trimmed,
    comma-free origins is read back unchanged. *)
Theorem ALLOWED_ORIGINS_LIST_join (origins : list pystr) :
  (forall o, In o origins -> ~ In comma o) ->
  ALLOWED_ORIGINS_LIST (str_join [comma] origins) =
    map str_strip (filter (fun o => str_truthy (str_strip o)) origins)
  /\ ((forall o, In o origins -> o <> [] /\ str_strip o = o) ->
      ALLOWED_ORIGINS_LIST (str_join [comma] origins) = origins).
Proof.
  intros Hsep.
  assert (E : ALLOWED_ORIGINS_LIST (str_join [comma] origins) =
    map str_strip (filter (fun o => str_truthy (str_strip o)) origins)).
  { unfold ALLOWED_ORIGINS_LIST. destruct origins as [|o rest]; [reflexivity|].
    rewrite str_split_join; [reflexivity|discriminate|exact Hsep]. }
  split; [exact E|]. intros Hclean. rewrite E. clear E Hsep.
  induction origins as [|o rest IH]; [reflexivity|]. simpl.
  destruct (Hclean o (or_introl eq_refl)) as [Hne Hs].
  rewrite Hs. rewrite (str_truthy_true o Hne). simpl. rewrite Hs. f_equal.
  apply IH. intros x Hx. apply Hclean. now right.
Qed.

Lemma ALLOWED_ORIGINS_LIST_join_witness :
  ALLOWED_ORIGINS_LIST
    (str_join [comma] [lit "https://a.example"; lit "https://b.example"]) =
    map str_strip (filter (fun o => str_truthy (str_strip o))
                     [lit "https://a.example"; lit "https://b.example"])
  /\ ((forall o, In o [lit "https://a.example"; lit "https://b.example"] ->
                 o <> [] /\ str_strip o = o) ->
      ALLOWED_ORIGINS_LIST
        (str_join [comma] [lit "https://a.example"; lit "https://b.example"])
      = [lit "https://a.example"; lit "https://b.example"]).
Proof.
  apply (ALLOWED_ORIGINS_LIST_join [lit "https://a.example"; lit "https://b.example"]).
  intros o [<-|[<-|[]]]; vm_compute; intuition discriminate.
Defined.

(** X10. No origin is read exactly when ALLOWED_ORIGINS consists of commas
    and whitespace only; an unset variable reads as the empty string and
    gives none. *)
Theorem ALLOWED_ORIGINS_LIST_nil_iff (allowed_origins : pystr) :
  (ALLOWED_ORIGINS_LIST allowed_origins = [] <->
   forallb (fun c => is_space c || N.eqb c comma) allowed_origins = true)
  /\ (forall env_vars,
        environ_lookup env_vars (lit "ALLOWED_ORIGINS") = None ->
        ALLOWED_ORIGINS_LIST (ALLOWED_ORIGINS env_vars) = []).
Proof.
  split.
  - unfold ALLOWED_ORIGINS_LIST. split.
    + intros H. apply forallb_forall. intros c Hc.
      destruct (is_space c) eqn:Hs; [reflexivity|]. simpl.
      destruct (N.eqb_spec c comma) as [|Hne]; [reflexivity|]. exfalso.
      destruct (str_split_covers comma allowed_origins c Hc Hne)
        as (piece & Hp & Hcp).
      pose proof (str_strip_keeps piece c Hcp Hs) as Hk.
      assert (Hin : In (str_strip piece)
                (map str_strip
                   (filter (fun o => str_truthy (str_strip o))
                      (str_split comma allowed_origins)))).
      { apply in_map. apply filter_In. split; [exact Hp|].
        destruct (str_strip piece); [destruct Hk|reflexivity]. }
      rewrite H in Hin. destruct Hin.
    + intros H.
      assert (F : forall pieces,
                (forall piece, In piece pieces -> str_strip piece = []) ->
                filter (fun o => str_truthy (str_strip o)) pieces = []).
      { induction pieces as [|piece pieces IH]; [reflexivity|].
        intros Hall. simpl. rewrite (Hall piece (or_introl eq_refl)). simpl.
        apply IH. intros x Hx. apply Hall. now right. }
      rewrite F; [reflexivity|].
      intros piece Hp. apply str_strip_blank. apply forallb_forall.
      intros c Hc.
      pose proof (proj1 (forallb_forall _ _) H c
                    (str_split_In comma allowed_origins piece c Hp Hc)) as Hb.
      cbv beta in Hb. apply orb_prop in Hb. destruct Hb as [Hb|Hb]; [exact Hb|].
      apply N.eqb_eq in Hb. subst c.
      exfalso. exact (str_split_no_sep comma allowed_origins piece Hp Hc).
  - intros env_vars H. unfold ALLOWED_ORIGINS, os_getenv. now rewrite H.
Qed.

(** X11. Whatever order the set of origins is listed in, the CORS fallback
    [["http://localhost:5173"]] is never used: the allowed origins are the
    four defaults together with the origins read from ALLOWED_ORIGINS,
    without repetition, hence between 4 and 4 plus the number read. *)
Theorem allow_origins_spec (allowed_origins : pystr) (l : list pystr) :
  cors_origins allowed_origins l ->
  allow_origins l = l
  /\ (forall o, In o default_origins -> In o (allow_origins l))
  /\ (forall o, In o (allow_origins l) ->
        In o default_origins \/ In o (ALLOWED_ORIGINS_LIST allowed_origins))
  /\ NoDup (allow_origins l)
  /\ 4 <= List.length (allow_origins l)
  /\ List.length (allow_origins l)
     <= 4 + List.length (ALLOWED_ORIGINS_LIST allowed_origins).
Proof.
  intros [Hnd Hin].
  assert (Hd : NoDup default_origins).
  { vm_compute.
    repeat (constructor; [simpl; intuition discriminate|]). constructor. }
  assert (L4 : 4 <= List.length l).
  { change 4 with (List.length default_origins).
    apply NoDup_incl_length; [exact Hd|].
    intros o Ho. apply Hin. apply in_or_app. now left. }
  assert (E : allow_origins l = l).
  { destruct l; [simpl in L4; lia|reflexivity]. }
  rewrite E. split; [reflexivity|]. split; [|split; [|split; [exact Hnd|split]]].
  - intros o Ho. apply Hin. apply in_or_app. now left.
  - intros o Ho. apply in_app_or. now apply Hin.
  - exact L4.
  - change 4 with (List.length default_origins). rewrite <- length_app.
    apply NoDup_incl_length; [exact Hnd|]. intros o Ho. now apply Hin.
Qed.

Lemma allow_origins_spec_witness :
  allow_origins (set_listing_example
                   (default_origins ++ ALLOWED_ORIGINS_LIST sample_origins))
  = set_listing_example (default_origins ++ ALLOWED_ORIGINS_LIST sample_origins)
  /\ (forall o, In o default_origins ->
        In o (allow_origins (set_listing_example
                (default_origins ++ ALLOWED_ORIGINS_LIST sample_origins))))
  /\ (forall o,
        In o (allow_origins (set_listing_example
                (default_origins ++ ALLOWED_ORIGINS_LIST sample_origins))) ->
        In o default_origins \/ In o (ALLOWED_ORIGINS_LIST sample_origins))
  /\ NoDup (allow_origins (set_listing_example
              (default_origins ++ ALLOWED_ORIGINS_LIST sample_origins)))
  /\ 4 <= List.length (allow_origins (set_listing_example
              (default_origins ++ ALLOWED_ORIGINS_LIST sample_origins)))
  /\ List.length (allow_origins (set_listing_example
              (default_origins ++ ALLOWED_ORIGINS_LIST sample_origins)))
     <= 4 + List.length (ALLOWED_ORIGINS_LIST sample_origins).
Proof.
  apply (allow_origins_spec sample_origins
           (set_listing_example
              (default_origins ++ ALLOWED_ORIGINS_LIST sample_origins))).
  split; [apply NoDup_nodup|intros o; apply nodup_In].
Defined.

(** ** More on the upstream client *)

Lemma call_dvla_plate_format (e : env) (p q : pystr) sent :
  normalize_plate p = normalize_plate q ->
  call_dvla e p sent = call_dvla e q sent.
Proof.
  intros H. unfold call_dvla, dvla_request. now rewrite H.
Qed.

Lemma normalize_str_strip (p : pystr) :
  normalize_plate (str_strip p) = normalize_plate p.
Proof. rewrite !normalize_plate_filter. now rewrite filter_kept_strip. Qed.

(** The four ways a call of [call_dvla] can go. *)
Lemma call_dvla_cases (e : env) (p : pystr) sent :
  (credential_configured e = false /\ call_dvla e p sent = (Ok PNone, sent))
  \/ (exists key,
        DVLA_API_KEY e = Some key /\ str_truthy key = true /\
        ((_http e = None /\ call_dvla e p sent = (Raise AssertionError, sent))
         \/ (exists http,
               _http e = Some http /\ http (dvla_request key p) = Failure /\
               call_dvla e p sent =
                 (Raise TransportError, sent ++ [dvla_request key p]))
         \/ (exists r, upstream_replies e p key r))).
Proof.
  destruct (credential_configured e) eqn:Hc.
  - right. unfold credential_configured in Hc.
    destruct (DVLA_API_KEY e) as [key|] eqn:Hk; [|discriminate].
    exists key. split; [reflexivity|split; [exact Hc|]].
    destruct (_http e) as [http|] eqn:Hh.
    + destruct (http (dvla_request key p)) as [r|] eqn:Hr.
      * right. right. exists r. split; [exact Hk|split; [exact Hc|]].
        exists http. split; [exact Hh|exact Hr].
      * right. left. exists http. split; [reflexivity|split; [exact Hr|]].
        unfold call_dvla. rewrite Hk, Hc, Hh. cbn [negb]. cbv beta iota.
        unfold bind, post. now rewrite Hr.
    + left. split; [reflexivity|].
      unfold call_dvla. now rewrite Hk, Hc, Hh.
  - left. split; [reflexivity|]. now apply call_dvla_no_credential.
Qed.

(** What an answer [r] becomes. *)
Lemma call_dvla_reply_cases (e : env) (p key : pystr) (r : http_response) sent :
  upstream_replies e p key r ->
  (status_code r = 200%Z /\
   ((exists v, json r = Some v /\
               call_dvla e p sent = (Ok v, sent ++ [dvla_request key p]))
    \/ (json r = None /\
        call_dvla e p sent =
          (Raise JSONDecodeError, sent ++ [dvla_request key p]))))
  \/ ((status_code r = 400%Z \/ status_code r = 404%Z) /\
      call_dvla e p sent = (Ok PNone, sent ++ [dvla_request key p]))
  \/ (status_code r <> 200%Z /\ status_code r <> 400%Z /\
      status_code r <> 404%Z /\
      call_dvla e p sent =
        (Raise (HTTPException (status_code r)
                  (lit "DVLA error: " ++ str_prefix 200 (text r))),
         sent ++ [dvla_request key p])).
Proof.
  intros Hup. rewrite (call_dvla_reply e p key r sent Hup).
  destruct (Z.eqb_spec (status_code r) 200) as [H200|H200].
  - left. split; [exact H200|]. unfold response_json.
    destruct (json r) as [v|].
    + left. exists v. split; reflexivity.
    + right. split; reflexivity.
  - right. destruct (Z.eqb_spec (status_code r) 400) as [H400|H400].
    + left. split; [now left|reflexivity].
    + destruct (Z.eqb_spec (status_code r) 404) as [H404|H404].
      * left. split; [now right|reflexivity].
      * right. repeat split; assumption.
Qed.

(** X12. When [call_dvla] returns a value, the value is [None] (no
    credential, an upstream 400 or 404, or a 200 whose body is [null]) or it
    is the JSON body of an upstream 200; it returns nothing else. *)
Theorem call_dvla_result_inv (e : env) (p : pystr) (v : pyval) sent sent' :
  call_dvla e p sent = (Ok v, sent') ->
  (v = PNone /\ credential_configured e = false /\ sent' = sent)
  \/ (exists key r,
        upstream_replies e p key r /\ sent' = sent ++ [dvla_request key p] /\
        ((v = PNone /\ (status_code r = 400%Z \/ status_code r = 404%Z))
         \/ (status_code r = 200%Z /\ json r = Some v))).
Proof.
  intros H.
  destruct (call_dvla_cases e p sent)
    as [[Hc E]|(key & Hk & Ht & [[Hh E]|[(http & Hh & Hr & E)|(r & Hup)]])];
    try (rewrite E in H; discriminate).
  - rewrite E in H. injection H as <- <-. left. auto.
  - right. exists key, r. split; [exact Hup|].
    destruct (call_dvla_reply_cases e p key r sent Hup)
      as [[H200 [(w & Hj & E)|[Hj E]]]|[[Hst E]|(_ & _ & _ & E)]];
      rewrite E in H; try discriminate; injection H as <- <-.
    + split; [reflexivity|]. right. auto.
    + split; [reflexivity|]. left. auto.
Qed.

Lemma call_dvla_result_inv_witness :
  (PDict ford_record = PNone
   /\ credential_configured (stub_env ford_response) = false
   /\ [dvla_request sample_key (lit "AB12CDE")] = [])
  \/ (exists key r,
        upstream_replies (stub_env ford_response) (lit "AB12CDE") key r
        /\ [dvla_request sample_key (lit "AB12CDE")]
           = [] ++ [dvla_request key (lit "AB12CDE")]
        /\ ((PDict ford_record = PNone
             /\ (status_code r = 400%Z \/ status_code r = 404%Z))
            \/ (status_code r = 200%Z /\ json r = Some (PDict ford_record)))).
Proof.
  apply (call_dvla_result_inv (stub_env ford_response) (lit "AB12CDE")
           (PDict ford_record) [] [dvla_request sample_key (lit "AB12CDE")]).
  vm_compute. reflexivity.
Defined.

(** ** More on the lookup handler *)

Lemma lookup_blank (e : env) (request : LookupRequest) sent :
  str_strip (plate request) = [] ->
  lookup e request sent =
    (Raise (HTTPException 400 (lit "plate required")), sent).
Proof. intros E. unfold lookup. cbv zeta. now rewrite E. Qed.

Lemma lookup_bind (e : env) (request : LookupRequest) sent :
  str_strip (plate request) <> [] ->
  lookup e request sent =
    bind (call_dvla e (str_strip (plate request))) (map_vehicle e) sent.
Proof.
  intros H. unfold lookup. cbv zeta. rewrite (str_truthy_true _ H).
  reflexivity.
Qed.

Lemma lookup_call_raises (e : env) (request : LookupRequest) x sent sent' :
  str_strip (plate request) <> [] ->
  call_dvla e (str_strip (plate request)) sent = (Raise x, sent') ->
  lookup e request sent = (Raise x, sent').
Proof.
  intros Hp Hc. rewrite (lookup_bind e request sent Hp). unfold bind.
  now rewrite Hc.
Qed.

Lemma lookup_call_ok (e : env) (request : LookupRequest) v sent sent' :
  str_strip (plate request) <> [] ->
  call_dvla e (str_strip (plate request)) sent = (Ok v, sent') ->
  lookup e request sent = map_vehicle e v sent'.
Proof.
  intros Hp Hc. rewrite (lookup_bind e request sent Hp). unfold bind.
  now rewrite Hc.
Qed.

Lemma validate_opt_str_raise (e : env) (v : pyval) x :
  validate_opt_str e v = Raise x -> x = ValidationError.
Proof.
  unfold validate_opt_str.
  destruct v; try discriminate; destruct (coerce_str e _);
    try discriminate; now intros [= <-].
Qed.

Lemma validate_opt_int_raise (e : env) (v : pyval) x :
  validate_opt_int e v = Raise x -> x = ValidationError.
Proof.
  unfold validate_opt_int.
  destruct v; try discriminate; destruct (coerce_int e _);
    try discriminate; now intros [= <-].
Qed.

(** The constructor of [LookupResponse] validates the five values in turn;
    it yields a response made of the validated values, or fails with a
    validation error, and sends nothing. *)
Lemma new_LookupResponse_cases (e : env) (a b c y f : pyval) sent :
  (exists resp,
      new_LookupResponse e a b c y f sent = (Ok resp, sent)
      /\ validate_opt_str e a = Ok (make resp)
      /\ validate_opt_str e b = Ok (model resp)
      /\ validate_opt_str e c = Ok (colour resp)
      /\ validate_opt_int e y = Ok (year_of_manufacture resp)
      /\ validate_opt_str e f = Ok (fuel_type resp))
  \/ (new_LookupResponse e a b c y f sent = (Raise ValidationError, sent)
      /\ ((exists x, validate_opt_str e a = Raise x)
          \/ (exists x, validate_opt_str e b = Raise x)
          \/ (exists x, validate_opt_str e c = Raise x)
          \/ (exists x, validate_opt_int e y = Raise x)
          \/ (exists x, validate_opt_str e f = Raise x))).
Proof.
  unfold new_LookupResponse, bind, lift, ret.
  destruct (validate_opt_str e a) as [ra|xa] eqn:Ea.
  2:{ right. rewrite (validate_opt_str_raise e a xa Ea). eauto. }
  destruct (validate_opt_str e b) as [rb|xb] eqn:Eb.
  2:{ right. rewrite (validate_opt_str_raise e b xb Eb). eauto. }
  destruct (validate_opt_str e c) as [rc|xc] eqn:Ec.
  2:{ right. rewrite (validate_opt_str_raise e c xc Ec). eauto 6. }
  destruct (validate_opt_int e y) as [ry|xy] eqn:Ey.
  2:{ right. rewrite (validate_opt_int_raise e y xy Ey). eauto 7. }
  destruct (validate_opt_str e f) as [rf|xf] eqn:Ef.
  2:{ right. rewrite (validate_opt_str_raise e f xf Ef). eauto 8. }
  left. eexists. split; [reflexivity|]. simpl. auto.
Qed.

Lemma map_vehicle_falsy (e : env) (v : pyval) sent :
  truthy v = false ->
  map_vehicle e v sent =
    (Raise (HTTPException 404 (lit "Vehicle not found")), sent).
Proof. intros H. unfold map_vehicle. now rewrite H. Qed.

Lemma map_vehicle_non_dict (e : env) (v : pyval) sent :
  truthy v = true -> is_dict v = false ->
  map_vehicle e v sent = (Raise AttributeError, sent).
Proof.
  intros Ht Hd. unfold map_vehicle. rewrite Ht.
  destruct v; try discriminate; reflexivity.
Qed.

Lemma map_vehicle_dict (e : env) (d : pydict) sent :
  d <> [] ->
  map_vehicle e (PDict d) sent =
    new_LookupResponse e (dict_get d (lit "make")) (dict_get d (lit "model"))
      (dict_get d (lit "colour")) (dict_get d (lit "yearOfManufacture"))
      (dict_get d (lit "fuelType")) sent.
Proof.
  intros Hd. unfold map_vehicle.
  destruct d as [|kv d']; [congruence|]. reflexivity.
Qed.

Lemma map_vehicle_log (e : env) (v : pyval) sent :
  snd (map_vehicle e v sent) = sent.
Proof.
  destruct (truthy v) eqn:Ht; [|now rewrite map_vehicle_falsy].
  destruct (is_dict v) eqn:Hd; [|now rewrite map_vehicle_non_dict].
  destruct v; try discriminate.
  assert (Hne : d <> []) by (destruct d; [discriminate|discriminate]).
  rewrite (map_vehicle_dict e d sent Hne).
  destruct (new_LookupResponse_cases e (dict_get d (lit "make"))
              (dict_get d (lit "model")) (dict_get d (lit "colour"))
              (dict_get d (lit "yearOfManufacture"))
              (dict_get d (lit "fuelType")) sent)
    as [(resp & E & _)|[E _]]; now rewrite E.
Qed.

Lemma lookup_log (e : env) (request : LookupRequest) sent :
  str_strip (plate request) <> [] ->
  snd (lookup e request sent)
  = snd (call_dvla e (str_strip (plate request)) sent).
Proof.
  intros Hp.
  destruct (call_dvla e (str_strip (plate request)) sent) as [[v|x] s'] eqn:Ec.
  - rewrite (lookup_call_ok e request v sent s' Hp Ec). apply map_vehicle_log.
  - now rewrite (lookup_call_raises e request x sent s' Hp Ec).
Qed.

(** With a credential and a client, [call_dvla] sends exactly the request
    for its plate, whatever the answer. *)
Lemma call_dvla_log_client (e : env) (p key : pystr) (http : client) sent :
  DVLA_API_KEY e = Some key -> str_truthy key = true -> _http e = Some http ->
  snd (call_dvla e p sent) = sent ++ [dvla_request key p].
Proof.
  intros Hk Ht Hh. unfold call_dvla. rewrite Hk, Ht, Hh. cbn [negb].
  cbv beta iota. unfold bind, post.
  destruct (http (dvla_request key p)) as [r|]; [|reflexivity].
  destruct (Z.eqb (status_code r) 200).
  - unfold response_json. destruct (json r); reflexivity.
  - destruct (Z.eqb (status_code r) 400 || Z.eqb (status_code r) 404);
      reflexivity.
Qed.

(** X13. A lookup sends at most one request upstream and never touches what
    was sent before; a request is sent only for a plate that is not blank
    and with a configured credential, and it is the request for the trimmed
    plate. *)
Theorem lookup_sends_at_most_once
    (e : env) (request : LookupRequest) (sent : list http_request) :
  snd (lookup e request sent) = sent
  \/ (str_strip (plate request) <> []
      /\ exists key,
           DVLA_API_KEY e = Some key /\ str_truthy key = true
           /\ snd (lookup e request sent) =
                sent ++ [dvla_request key (str_strip (plate request))]).
Proof.
  destruct (str_strip (plate request)) as [|c p'] eqn:Ep.
  - left. now rewrite (lookup_blank e request sent Ep).
  - assert (Hp : str_strip (plate request) <> []) by (rewrite Ep; discriminate).
    rewrite <- Ep. rewrite (lookup_log e request sent Hp).
    destruct (call_dvla_cases e (str_strip (plate request)) sent)
      as [[Hc E]|(key & Hk & Ht & [[Hh E]|[(http & Hh & Hr & E)|(r & Hup)]])].
    + left. now rewrite E.
    + left. now rewrite E.
    + right. split; [exact Hp|]. exists key. rewrite E. auto.
    + right. split; [exact Hp|]. exists key.
      split; [exact Hk|split; [exact Ht|]].
      destruct Hup as (_ & _ & http & Hh & _).
      now apply (call_dvla_log_client e _ key http).
Qed.

(** X14. The outcome of a lookup depends on the plate only through its
    normalisation: two plates that are not blank and normalise alike (they
    differ in case, spaces or hyphens) give the same result and send the same
    request. *)
Theorem lookup_plate_format
    (e : env) (r1 r2 : LookupRequest) (sent : list http_request) :
  str_strip (plate r1) <> [] ->
  str_strip (plate r2) <> [] ->
  normalize_plate (plate r1) = normalize_plate (plate r2) ->
  lookup e r1 sent = lookup e r2 sent.
Proof.
  intros H1 H2 Hn.
  rewrite (lookup_bind e r1 sent H1), (lookup_bind e r2 sent H2).
  unfold bind.
  rewrite (call_dvla_plate_format e (str_strip (plate r1))
             (str_strip (plate r2)) sent); [reflexivity|].
  now rewrite !normalize_str_strip.
Qed.

Lemma lookup_plate_format_witness :
  lookup (stub_env ford_response) sample_request [] =
  lookup (stub_env ford_response) {| plate := lit "AB-12-CDE" |} [].
Proof.
  apply (lookup_plate_format (stub_env ford_response) sample_request
           {| plate := lit "AB-12-CDE" |} []).
  - nonblank.
  - nonblank.
  - vm_compute. reflexivity.
Defined.

(** X15. A plate made of hyphens and whitespace only, with at least one
    hyphen, passes the empty-plate check: the handler sends a request whose
    registration number is the empty string. *)
Theorem lookup_separator_plate
    (e : env) (request : LookupRequest) (key : pystr) (http : client)
    (sent : list http_request) :
  str_strip (plate request) <> [] ->
  forallb ws_or_hyphen (plate request) = true ->
  DVLA_API_KEY e = Some key -> str_truthy key = true ->
  _http e = Some http ->
  snd (lookup e request sent) =
    sent ++ [{| url := DVLA_URL;
                headers := [(lit "x-api-key", key);
                            (lit "Content-Type", lit "application/json")];
                json_payload := [(lit "registrationNumber", PStr [])] |}].
Proof.
  intros Hp Hall Hk Ht Hh.
  rewrite (lookup_log e request sent Hp).
  rewrite (call_dvla_log_client e _ key http sent Hk Ht Hh).
  unfold dvla_request. rewrite normalize_str_strip.
  now rewrite (proj2 (normalize_plate_nil (plate request)) Hall).
Qed.

Lemma lookup_separator_plate_witness :
  snd (lookup (stub_env not_found_response) hyphen_request []) =
    [] ++ [{| url := DVLA_URL;
              headers := [(lit "x-api-key", sample_key);
                          (lit "Content-Type", lit "application/json")];
              json_payload := [(lit "registrationNumber", PStr [])] |}].
Proof.
  apply (lookup_separator_plate (stub_env not_found_response) hyphen_request
           sample_key (stub not_found_response) []).
  - nonblank.
  - vm_compute. reflexivity.
  - reflexivity.
  - reflexivity.
  - reflexivity.
Defined.

(** X16. If the upstream call returns status 200 with a body that is falsy
    in Python ([null], [false], [0], [0.0], the empty string, the empty
    array, the empty object), the lookup fails with status 404 and message
    "Vehicle not found". *)
Theorem lookup_falsy_body
    (e : env) (request : LookupRequest) (key : pystr) (r : http_response)
    (v : pyval) (sent : list http_request) :
  str_strip (plate request) <> [] ->
  upstream_replies e (str_strip (plate request)) key r ->
  status_code r = 200%Z ->
  json r = Some v ->
  truthy v = false ->
  lookup e request sent =
    (Raise (HTTPException 404 (lit "Vehicle not found")),
     sent ++ [dvla_request key (str_strip (plate request))]).
Proof.
  intros Hp Hup Hst Hjs Hf.
  rewrite (lookup_call_ok e request v sent _ Hp
             (call_dvla_ok e _ key r v sent Hup Hst Hjs)).
  now apply map_vehicle_falsy.
Qed.

Lemma lookup_falsy_body_witness :
  lookup (stub_env null_body_response) sample_request [] =
    (Raise (HTTPException 404 (lit "Vehicle not found")),
     [] ++ [dvla_request sample_key (str_strip (plate sample_request))]).
Proof.
  apply (lookup_falsy_body (stub_env null_body_response) sample_request
           sample_key null_body_response PNone []).
  - nonblank.
  - stub_replies.
  - reflexivity.
  - reflexivity.
  - reflexivity.
Defined.

(** X17. If the upstream call returns status 200 with a truthy body that is
    not a JSON object (a non-empty array or string, a non-zero number,
    [true]), the lookup raises an AttributeError, not an HTTP error: the
    handler calls [get] on the body. *)
Theorem lookup_non_dict_body
    (e : env) (request : LookupRequest) (key : pystr) (r : http_response)
    (v : pyval) (sent : list http_request) :
  str_strip (plate request) <> [] ->
  upstream_replies e (str_strip (plate request)) key r ->
  status_code r = 200%Z ->
  json r = Some v ->
  truthy v = true ->
  is_dict v = false ->
  lookup e request sent =
    (Raise AttributeError,
     sent ++ [dvla_request key (str_strip (plate request))]).
Proof.
  intros Hp Hup Hst Hjs Ht Hd.
  rewrite (lookup_call_ok e request v sent _ Hp
             (call_dvla_ok e _ key r v sent Hup Hst Hjs)).
  now apply map_vehicle_non_dict.
Qed.

Lemma lookup_non_dict_body_witness :
  lookup (stub_env list_body_response) sample_request [] =
    (Raise AttributeError,
     [] ++ [dvla_request sample_key (str_strip (plate sample_request))]).
Proof.
  apply (lookup_non_dict_body (stub_env list_body_response) sample_request
           sample_key list_body_response (PList [PInt 1]) []).
  - nonblank.
  - stub_replies.
  - reflexivity.
  - reflexivity.
  - reflexivity.
  - reflexivity.
Defined.

Lemma truthy_dict_inv (v : pyval) :
  truthy v = true -> is_dict v = true -> exists d, v = PDict d /\ d <> [].
Proof.
  destruct v; try discriminate. intros Ht _. exists d. split; [reflexivity|].
  destruct d; [discriminate|discriminate].
Qed.

(** X18. A lookup succeeds only one way: the plate is not blank, one request
    was sent, the upstream answered 200 with a non-empty JSON object, and
    each field of the response is the validated value of the object's field
    of that name. *)
Theorem lookup_ok_inv
    (e : env) (request : LookupRequest) (resp : LookupResponse)
    (sent sent' : list http_request) :
  lookup e request sent = (Ok resp, sent') ->
  str_strip (plate request) <> []
  /\ exists key r d,
       upstream_replies e (str_strip (plate request)) key r
       /\ status_code r = 200%Z
       /\ json r = Some (PDict d) /\ d <> []
       /\ sent' = sent ++ [dvla_request key (str_strip (plate request))]
       /\ validate_opt_str e (dict_get d (lit "make")) = Ok (make resp)
       /\ validate_opt_str e (dict_get d (lit "model")) = Ok (model resp)
       /\ validate_opt_str e (dict_get d (lit "colour")) = Ok (colour resp)
       /\ validate_opt_int e (dict_get d (lit "yearOfManufacture"))
          = Ok (year_of_manufacture resp)
       /\ validate_opt_str e (dict_get d (lit "fuelType")) = Ok (fuel_type resp).
Proof.
  intros H.
  destruct (str_strip (plate request)) as [|c0 p'] eqn:Ep.
  { rewrite (lookup_blank e request sent Ep) in H. discriminate. }
  assert (Hp : str_strip (plate request) <> []) by (rewrite Ep; discriminate).
  rewrite <- Ep. split; [exact Hp|].
  destruct (call_dvla e (str_strip (plate request)) sent) as [[v|x] s'] eqn:Ec.
  2:{ rewrite (lookup_call_raises e request x sent s' Hp Ec) in H. discriminate. }
  rewrite (lookup_call_ok e request v sent s' Hp Ec) in H.
  destruct (truthy v) eqn:Ht.
  2:{ rewrite (map_vehicle_falsy e v s' Ht) in H. discriminate. }
  destruct (is_dict v) eqn:Hd.
  2:{ rewrite (map_vehicle_non_dict e v s' Ht Hd) in H. discriminate. }
  destruct (truthy_dict_inv v Ht Hd) as (d & -> & Hne).
  rewrite (map_vehicle_dict e d s' Hne) in H.
  destruct (call_dvla_cases e (str_strip (plate request)) sent)
    as [[_ E]|(key & Hk & Hkt & [[_ E]|[(http & _ & _ & E)|(r & Hup)]])];
    try (rewrite E in Ec; discriminate).
  destruct (call_dvla_reply_cases e _ key r sent Hup)
    as [[H200 [(w & Hj & E)|[Hj E]]]|[[Hst E]|(_ & _ & _ & E)]];
    rewrite E in Ec; try discriminate.
  injection Ec as Ew Es. subst w s'.
  exists key, r, d.
  destruct (new_LookupResponse_cases e (dict_get d (lit "make"))
              (dict_get d (lit "model")) (dict_get d (lit "colour"))
              (dict_get d (lit "yearOfManufacture"))
              (dict_get d (lit "fuelType"))
              (sent ++ [dvla_request key (str_strip (plate request))]))
    as [(resp' & E' & V)|[E' _]]; rewrite E' in H; [|discriminate].
  injection H as <- <-. repeat (split; [assumption || reflexivity|]).
  tauto.
Qed.

Lemma lookup_ok_inv_witness :
  str_strip (plate sample_request) <> []
  /\ exists key r d,
       upstream_replies (stub_env ford_response)
         (str_strip (plate sample_request)) key r
       /\ status_code r = 200%Z
       /\ json r = Some (PDict d) /\ d <> []
       /\ [dvla_request sample_key (str_strip (plate sample_request))]
          = [] ++ [dvla_request key (str_strip (plate sample_request))]
       /\ validate_opt_str (stub_env ford_response) (dict_get d (lit "make"))
          = Ok (make (extract ford_record))
       /\ validate_opt_str (stub_env ford_response) (dict_get d (lit "model"))
          = Ok (model (extract ford_record))
       /\ validate_opt_str (stub_env ford_response) (dict_get d (lit "colour"))
          = Ok (colour (extract ford_record))
       /\ validate_opt_int (stub_env ford_response)
            (dict_get d (lit "yearOfManufacture"))
          = Ok (year_of_manufacture (extract ford_record))
       /\ validate_opt_str (stub_env ford_response) (dict_get d (lit "fuelType"))
          = Ok (fuel_type (extract ford_record)).
Proof.
  apply (lookup_ok_inv (stub_env ford_response) sample_request
           (extract ford_record) []
           [dvla_request sample_key (str_strip (plate sample_request))]).
  vm_compute. reflexivity.
Defined.

(** X19. The HTTP errors of a lookup are of three kinds and no other: 400
    "plate required" for a blank plate, with nothing sent; 404
    "Vehicle not found"; or the status of an upstream answer other than 200,
    400 and 404, with "DVLA error: " and at most 200 characters of its body.
    In particular a 400 always means a blank plate. *)
Theorem lookup_http_exception_inv
    (e : env) (request : LookupRequest) (st : Z) (d : pystr)
    (sent sent' : list http_request) :
  lookup e request sent = (Raise (HTTPException st d), sent') ->
  (st = 400%Z /\ d = lit "plate required"
   /\ str_strip (plate request) = [] /\ sent' = sent)
  \/ (st = 404%Z /\ d = lit "Vehicle not found"
      /\ str_strip (plate request) <> [])
  \/ (st <> 200%Z /\ st <> 400%Z /\ st <> 404%Z
      /\ str_strip (plate request) <> []
      /\ exists key r,
           upstream_replies e (str_strip (plate request)) key r
           /\ status_code r = st
           /\ d = lit "DVLA error: " ++ str_prefix 200 (text r)
           /\ List.length d <= 212
           /\ sent' = sent ++ [dvla_request key (str_strip (plate request))]).
Proof.
  intros H.
  destruct (str_strip (plate request)) as [|c0 p'] eqn:Ep.
  { rewrite (lookup_blank e request sent Ep) in H.
    injection H as <- <- <-. left. auto. }
  assert (Hp : str_strip (plate request) <> []) by (rewrite Ep; discriminate).
  rewrite <- Ep. right.
  destruct (call_dvla e (str_strip (plate request)) sent) as [[v|x] s'] eqn:Ec.
  - rewrite (lookup_call_ok e request v sent s' Hp Ec) in H. left.
    destruct (truthy v) eqn:Ht.
    + destruct (is_dict v) eqn:Hd.
      * destruct (truthy_dict_inv v Ht Hd) as (dd & -> & Hne).
        rewrite (map_vehicle_dict e dd s' Hne) in H.
        destruct (new_LookupResponse_cases e (dict_get dd (lit "make"))
                    (dict_get dd (lit "model")) (dict_get dd (lit "colour"))
                    (dict_get dd (lit "yearOfManufacture"))
                    (dict_get dd (lit "fuelType")) s')
          as [(resp' & E' & _)|[E' _]]; rewrite E' in H; discriminate.
      * rewrite (map_vehicle_non_dict e v s' Ht Hd) in H. discriminate.
    + rewrite (map_vehicle_falsy e v s' Ht) in H.
      injection H as <- <- <-. auto.
  - rewrite (lookup_call_raises e request x sent s' Hp Ec) in H.
    injection H as -> <-. right.
    destruct (call_dvla_cases e (str_strip (plate request)) sent)
      as [[_ E]|(key & Hk & Hkt & [[_ E]|[(http & _ & _ & E)|(r & Hup)]])];
      try (rewrite E in Ec; discriminate).
    destruct (call_dvla_reply_cases e _ key r sent Hup)
      as [[H200 [(w & Hj & E)|[Hj E]]]|[[Hst E]|(N2 & N4 & N44 & E)]];
      rewrite E in Ec; try discriminate.
    assert (Est : status_code r = st) by congruence.
    assert (Ed : lit "DVLA error: " ++ str_prefix 200 (text r) = d)
      by congruence.
    assert (Es : sent ++ [dvla_request key (str_strip (plate request))] = s')
      by congruence.
    clear Ec E. subst st d s'.
    repeat (split; [assumption|]).
    exists key, r. repeat (split; [assumption || reflexivity|]).
    split; [|reflexivity].
    rewrite length_app. unfold str_prefix.
    pose proof (firstn_le_length 200 (text r)) as L.
    change (List.length (lit "DVLA error: ")) with 12. lia.
Qed.

Lemma lookup_http_exception_inv_witness :
  (500%Z = 400%Z
   /\ lit "DVLA error: Internal Server Error" = lit "plate required"
   /\ str_strip (plate sample_request) = []
   /\ [dvla_request sample_key (str_strip (plate sample_request))] = [])
  \/ (500%Z = 404%Z
      /\ lit "DVLA error: Internal Server Error" = lit "Vehicle not found"
      /\ str_strip (plate sample_request) <> [])
  \/ (500%Z <> 200%Z /\ 500%Z <> 400%Z /\ 500%Z <> 404%Z
      /\ str_strip (plate sample_request) <> []
      /\ exists key r,
           upstream_replies (stub_env server_error_response)
             (str_strip (plate sample_request)) key r
           /\ status_code r = 500%Z
           /\ lit "DVLA error: Internal Server Error"
              = lit "DVLA error: " ++ str_prefix 200 (text r)
           /\ List.length (lit "DVLA error: Internal Server Error") <= 212
           /\ [dvla_request sample_key (str_strip (plate sample_request))]
              = [] ++ [dvla_request key (str_strip (plate sample_request))]).
Proof.
  apply (lookup_http_exception_inv (stub_env server_error_response)
           sample_request 500%Z (lit "DVLA error: Internal Server Error") []
           [dvla_request sample_key (str_strip (plate sample_request))]).
  vm_compute. reflexivity.
Defined.

(** The handler maps an answer of [call_dvla] to a response, a 404, an
    attribute error or a validation error. *)
Lemma map_vehicle_cases (e : env) (v : pyval) sent :
  (exists resp, map_vehicle e v sent = (Ok resp, sent))
  \/ map_vehicle e v sent =
       (Raise (HTTPException 404 (lit "Vehicle not found")), sent)
  \/ map_vehicle e v sent = (Raise AttributeError, sent)
  \/ map_vehicle e v sent = (Raise ValidationError, sent).
Proof.
  destruct (truthy v) eqn:Ht; [|right; left; now apply map_vehicle_falsy].
  destruct (is_dict v) eqn:Hd;
    [|right; right; left; now apply map_vehicle_non_dict].
  destruct (truthy_dict_inv v Ht Hd) as (d & -> & Hne).
  rewrite (map_vehicle_dict e d sent Hne).
  destruct (new_LookupResponse_cases e (dict_get d (lit "make"))
              (dict_get d (lit "model")) (dict_get d (lit "colour"))
              (dict_get d (lit "yearOfManufacture"))
              (dict_get d (lit "fuelType")) sent)
    as [(resp & E & _)|[E _]]; rewrite E; eauto.
Qed.

(** X20. If the request to the upstream service fails in transport (no
    connection, time-out), the lookup raises the transport error, not an HTTP
    error, after the one attempt. *)
Theorem lookup_transport_failure
    (e : env) (request : LookupRequest) (key : pystr) (http : client)
    (sent : list http_request) :
  str_strip (plate request) <> [] ->
  DVLA_API_KEY e = Some key -> str_truthy key = true ->
  _http e = Some http ->
  http (dvla_request key (str_strip (plate request))) = Failure ->
  lookup e request sent =
    (Raise TransportError,
     sent ++ [dvla_request key (str_strip (plate request))]).
Proof.
  intros Hp Hk Ht Hh Hf. apply (lookup_call_raises e request _ sent _ Hp).
  unfold call_dvla. rewrite Hk, Ht, Hh. cbn [negb]. cbv beta iota.
  unfold bind, post. now rewrite Hf.
Qed.

Lemma lookup_transport_failure_witness :
  lookup (strict_env (Some sample_key) (Some down_client)) sample_request [] =
    (Raise TransportError,
     [] ++ [dvla_request sample_key (str_strip (plate sample_request))]).
Proof.
  apply (lookup_transport_failure
           (strict_env (Some sample_key) (Some down_client)) sample_request
           sample_key down_client []).
  - nonblank.
  - reflexivity.
  - reflexivity.
  - reflexivity.
  - reflexivity.
Defined.

(** X21. If the upstream call returns status 200 with a body that is not
    JSON, the lookup raises the decoding error of [response.json()]; it is
    neither a 404 nor an upstream-failure error. *)
Theorem lookup_bad_json
    (e : env) (request : LookupRequest) (key : pystr) (r : http_response)
    (sent : list http_request) :
  str_strip (plate request) <> [] ->
  upstream_replies e (str_strip (plate request)) key r ->
  status_code r = 200%Z ->
  json r = None ->
  lookup e request sent =
    (Raise JSONDecodeError,
     sent ++ [dvla_request key (str_strip (plate request))]).
Proof.
  intros Hp Hup Hst Hjs. apply (lookup_call_raises e request _ sent _ Hp).
  rewrite (call_dvla_reply e _ key r sent Hup), Hst.
  unfold response_json. now rewrite Hjs.
Qed.

Lemma lookup_bad_json_witness :
  lookup (stub_env bad_json_response) sample_request [] =
    (Raise JSONDecodeError,
     [] ++ [dvla_request sample_key (str_strip (plate sample_request))]).
Proof.
  apply (lookup_bad_json (stub_env bad_json_response) sample_request
           sample_key bad_json_response []).
  - nonblank.
  - stub_replies.
  - reflexivity.
  - reflexivity.
Defined.

Lemma lookup_assertion (e : env) (request : LookupRequest) sent :
  fst (lookup e request sent) = Raise AssertionError <->
  str_strip (plate request) <> [] /\ credential_configured e = true
  /\ _http e = None.
Proof.
  split.
  - intros H.
    destruct (str_strip (plate request)) as [|c0 p'] eqn:Ep.
    { rewrite (lookup_blank e request sent Ep) in H. discriminate. }
    assert (Hp : str_strip (plate request) <> []) by (rewrite Ep; discriminate).
    rewrite <- Ep. split; [exact Hp|].
    destruct (call_dvla e (str_strip (plate request)) sent) as [[v|x] s'] eqn:Ec.
    + rewrite (lookup_call_ok e request v sent s' Hp Ec) in H.
      destruct (map_vehicle_cases e v s') as [(resp & E)|[E|[E|E]]];
        rewrite E in H; discriminate.
    + rewrite (lookup_call_raises e request x sent s' Hp Ec) in H.
      simpl in H. injection H as ->.
      destruct (call_dvla_cases e (str_strip (plate request)) sent)
        as [[_ E]|(key & Hk & Hkt & [[Hh E]|[(http & _ & _ & E)|(r & Hup)]])];
        try (rewrite E in Ec; discriminate).
      * unfold credential_configured. rewrite Hk. auto.
      * destruct (call_dvla_reply_cases e _ key r sent Hup)
          as [[H200 [(w & Hj & E)|[Hj E]]]|[[Hst E]|(_ & _ & _ & E)]];
          rewrite E in Ec; discriminate.
  - intros (Hp & Hc & Hh).
    rewrite (lookup_call_raises e request AssertionError sent sent Hp);
      [reflexivity|].
    unfold credential_configured in Hc. unfold call_dvla.
    destruct (DVLA_API_KEY e) as [key|]; [|discriminate].
    now rewrite Hc, Hh.
Qed.

(** X22. A lookup fails the assertion on the shared client exactly when the
    plate is not blank, a credential is configured and the client is absent;
    a blank plate or a missing credential is answered before the client is
    looked at. *)
Theorem lookup_assertion_iff
    (e : env) (request : LookupRequest) (sent : list http_request) :
  (fst (lookup e request sent) = Raise AssertionError <->
   str_strip (plate request) <> [] /\ credential_configured e = true
   /\ _http e = None)
  /\ (fst (lookup e request sent) = Raise AssertionError ->
      snd (lookup e request sent) = sent).
Proof.
  split; [apply lookup_assertion|].
  intros H. apply lookup_assertion in H. destruct H as (Hp & Hc & Hh).
  rewrite (lookup_log e request sent Hp).
  unfold credential_configured in Hc. unfold call_dvla.
  destruct (DVLA_API_KEY e) as [key|]; [|discriminate].
  now rewrite Hc, Hh.
Qed.

(** X23. Between start-up and shutdown no lookup fails the assertion on the
    shared client, and start-up leaves the credential as it was; after
    shutdown a lookup for a non-blank plate with a configured credential
    fails that assertion and sends nothing. *)
Theorem lifespan_client
    (c : client) (e : env) (request : LookupRequest)
    (sent : list http_request) :
  fst (lookup (lifespan_startup c e) request sent) <> Raise AssertionError
  /\ credential_configured (lifespan_startup c e) = credential_configured e
  /\ (str_strip (plate request) <> [] -> credential_configured e = true ->
      lookup (lifespan_shutdown (lifespan_startup c e)) request sent =
        (Raise AssertionError, sent)).
Proof.
  split; [|split; [reflexivity|]].
  - intros H. apply lookup_assertion in H. destruct H as (_ & _ & H).
    discriminate.
  - intros Hp Hc.
    apply (lookup_call_raises _ request AssertionError sent sent Hp).
    unfold credential_configured in Hc. unfold call_dvla. simpl.
    destruct (DVLA_API_KEY e) as [key|]; [|discriminate].
    now rewrite Hc.
Qed.

Lemma dict_agree_get (d d' : pydict) (k : pystr) :
  (forall key, In key known_fields -> dict_get d key = dict_get d' key) ->
  In k known_fields -> dict_get d k = dict_get d' k.
Proof. intros H Hk. now apply H. Qed.

(** X24. Only the five known fields of the upstream record matter: two
    non-empty records that agree on them give the same lookup result, whatever
    other fields they carry. *)
Theorem lookup_ignores_other_fields
    (e e' : env) (request : LookupRequest) (key : pystr)
    (r r' : http_response) (d d' : pydict) (sent : list http_request) :
  str_strip (plate request) <> [] ->
  upstream_replies e (str_strip (plate request)) key r ->
  upstream_replies e' (str_strip (plate request)) key r' ->
  coerce_str e = coerce_str e' -> coerce_int e = coerce_int e' ->
  status_code r = 200%Z -> status_code r' = 200%Z ->
  json r = Some (PDict d) -> json r' = Some (PDict d') ->
  d <> [] -> d' <> [] ->
  (forall k, In k known_fields -> dict_get d k = dict_get d' k) ->
  lookup e request sent = lookup e' request sent.
Proof.
  intros Hp Hup Hup' Hcs Hci Hst Hst' Hj Hj' Hd Hd' Hag.
  rewrite (lookup_call_ok e request _ sent _ Hp
             (call_dvla_ok e _ key r _ sent Hup Hst Hj)).
  rewrite (lookup_call_ok e' request _ sent _ Hp
             (call_dvla_ok e' _ key r' _ sent Hup' Hst' Hj')).
  rewrite (map_vehicle_dict e d _ Hd), (map_vehicle_dict e' d' _ Hd').
  rewrite !(dict_agree_get d d' _ Hag) by (unfold known_fields; simpl; tauto).
  unfold new_LookupResponse, validate_opt_str, validate_opt_int.
  now rewrite Hcs, Hci.
Qed.

Lemma lookup_ignores_other_fields_witness :
  lookup (stub_env ford_response) sample_request [] =
  lookup (stub_env ford_core_response) sample_request [].
Proof.
  apply (lookup_ignores_other_fields (stub_env ford_response)
           (stub_env ford_core_response) sample_request sample_key
           ford_response ford_core_response ford_record
           [(lit "make", PStr (lit "FORD"));
            (lit "yearOfManufacture", PInt 2015)] []).
  - nonblank.
  - stub_replies.
  - stub_replies.
  - reflexivity.
  - reflexivity.
  - reflexivity.
  - reflexivity.
  - reflexivity.
  - reflexivity.
  - discriminate.
  - discriminate.
  - intros k [<-|[<-|[<-|[<-|[<-|[]]]]]]; vm_compute; reflexivity.
Defined.

(** X25. If the upstream record has a known field whose value is neither
    [null] nor of the declared type and that pydantic does not convert, the
    lookup raises a validation error after the upstream call: it is not
    reported as an HTTP error by the handler. *)
Theorem lookup_validation_error
    (e : env) (request : LookupRequest) (key : pystr) (r : http_response)
    (d : pydict) (sent : list http_request) :
  str_strip (plate request) <> [] ->
  upstream_replies e (str_strip (plate request)) key r ->
  status_code r = 200%Z ->
  json r = Some (PDict d) ->
  d <> [] ->
  (exists k, In k [lit "make"; lit "model"; lit "colour"; lit "fuelType"]
             /\ validate_opt_str e (dict_get d k) = Raise ValidationError)
  \/ validate_opt_int e (dict_get d (lit "yearOfManufacture"))
     = Raise ValidationError ->
  lookup e request sent =
    (Raise ValidationError,
     sent ++ [dvla_request key (str_strip (plate request))]).
Proof.
  intros Hp Hup Hst Hj Hd Hbad.
  rewrite (lookup_call_ok e request _ sent _ Hp
             (call_dvla_ok e _ key r _ sent Hup Hst Hj)).
  rewrite (map_vehicle_dict e d _ Hd).
  destruct (new_LookupResponse_cases e (dict_get d (lit "make"))
              (dict_get d (lit "model")) (dict_get d (lit "colour"))
              (dict_get d (lit "yearOfManufacture"))
              (dict_get d (lit "fuelType"))
              (sent ++ [dvla_request key (str_strip (plate request))]))
    as [(resp & _ & Vm & Vd & Vc & Vy & Vf)|[E _]]; [|exact E].
  exfalso. destruct Hbad as [(k & Hk & Hv)|Hv]; [|congruence].
  simpl in Hk. destruct Hk as [<-|[<-|[<-|[<-|[]]]]]; congruence.
Qed.

Lemma lookup_validation_error_witness :
  lookup (stub_env mistyped_response) sample_request [] =
    (Raise ValidationError,
     [] ++ [dvla_request sample_key (str_strip (plate sample_request))]).
Proof.
  apply (lookup_validation_error (stub_env mistyped_response) sample_request
           sample_key mistyped_response [(lit "make", PInt 7)] []).
  - nonblank.
  - stub_replies.
  - reflexivity.
  - reflexivity.
  - discriminate.
  - left. exists (lit "make"). split; [left; reflexivity|reflexivity].
Defined.

(** ** The success path *)

(** C1, as amended. For every lookup request whose plate is non-empty after
    trimming, if the upstream call returns status 200 with a vehicle record
    body that has at least one field, the lookup extracts the five fields
    from the record by name (make from [make], model from [model], colour
    from [colour], year_of_manufacture from [yearOfManufacture], fuel_type
    from [fuelType]), a field missing from the record being absent, and
    validates them against LookupResponse.  If the five extracted values pass
    validation, as a missing or [null] field and a value of the declared
    type always do, the lookup succeeds and returns the LookupResponse of
    the validated values; otherwise it raises a validation error. *)
Theorem lookup_success
    (e : env) (request : LookupRequest) (key : pystr) (r : http_response)
    (d : pydict) (sent : list http_request) :
  str_strip (plate request) <> [] ->
  upstream_replies e (str_strip (plate request)) key r ->
  status_code r = 200%Z ->
  json r = Some (PDict d) ->
  d <> [] ->
  (forall mk md cl yr fl,
      validate_opt_str e (dict_get d (lit "make")) = Ok mk ->
      validate_opt_str e (dict_get d (lit "model")) = Ok md ->
      validate_opt_str e (dict_get d (lit "colour")) = Ok cl ->
      validate_opt_int e (dict_get d (lit "yearOfManufacture")) = Ok yr ->
      validate_opt_str e (dict_get d (lit "fuelType")) = Ok fl ->
      lookup e request sent =
        (Ok {| make := mk; model := md; colour := cl;
               year_of_manufacture := yr; fuel_type := fl |},
         sent ++ [dvla_request key (str_strip (plate request))]))
  /\ ((exists x, validate_opt_str e (dict_get d (lit "make")) = Raise x)
      \/ (exists x, validate_opt_str e (dict_get d (lit "model")) = Raise x)
      \/ (exists x, validate_opt_str e (dict_get d (lit "colour")) = Raise x)
      \/ (exists x, validate_opt_int e (dict_get d (lit "yearOfManufacture"))
                    = Raise x)
      \/ (exists x, validate_opt_str e (dict_get d (lit "fuelType")) = Raise x) ->
      lookup e request sent =
        (Raise ValidationError,
         sent ++ [dvla_request key (str_strip (plate request))]))
  /\ (forall k, dict_lookup d k = None ->
                validate_opt_str e (dict_get d k) = Ok None
                /\ validate_opt_int e (dict_get d k) = Ok None)
  /\ (forall k, dict_lookup d k = Some PNone ->
                validate_opt_str e (dict_get d k) = Ok None
                /\ validate_opt_int e (dict_get d k) = Ok None)
  /\ (forall k s, dict_lookup d k = Some (PStr s) ->
                  validate_opt_str e (dict_get d k) = Ok (Some s))
  /\ (forall k z, dict_lookup d k = Some (PInt z) ->
                  validate_opt_int e (dict_get d k) = Ok (Some z))
  /\ (vehicle_record d = true ->
      lookup e request sent =
        (Ok {| make := record_str d (lit "make");
               model := record_str d (lit "model");
               colour := record_str d (lit "colour");
               year_of_manufacture := record_int d (lit "yearOfManufacture");
               fuel_type := record_str d (lit "fuelType") |},
         sent ++ [dvla_request key (str_strip (plate request))])).
Proof.
  intros Hp Hup Hst Hjs Hd.
  pose proof (call_dvla_ok e _ key r _ sent Hup Hst Hjs) as Hc.
  assert (E : lookup e request sent =
    new_LookupResponse e (dict_get d (lit "make")) (dict_get d (lit "model"))
      (dict_get d (lit "colour")) (dict_get d (lit "yearOfManufacture"))
      (dict_get d (lit "fuelType"))
      (sent ++ [dvla_request key (str_strip (plate request))])).
  { rewrite (lookup_call_ok e request _ sent _ Hp Hc).
    now apply map_vehicle_dict. }
  split; [|split; [|split; [|split; [|split; [|split]]]]].
  - intros mk md cl yr fl Vm Vd Vc Vy Vf. rewrite E.
    unfold new_LookupResponse. rewrite Vm, Vd, Vc, Vy, Vf. reflexivity.
  - intros Hbad. rewrite E.
    destruct (new_LookupResponse_cases e (dict_get d (lit "make"))
                (dict_get d (lit "model")) (dict_get d (lit "colour"))
                (dict_get d (lit "yearOfManufacture"))
                (dict_get d (lit "fuelType"))
                (sent ++ [dvla_request key (str_strip (plate request))]))
      as [(resp & _ & Vm & Vd & Vc & Vy & Vf)|[E' _]]; [|exact E'].
    exfalso.
    destruct Hbad as [[x B]|[[x B]|[[x B]|[[x B]|[x B]]]]]; congruence.
  - intros k Hk. unfold dict_get. rewrite Hk. split; reflexivity.
  - intros k Hk. unfold dict_get. rewrite Hk. split; reflexivity.
  - intros k s Hk. unfold dict_get. now rewrite Hk.
  - intros k z Hk. unfold dict_get. now rewrite Hk.
  - intros Hrec. now apply (lookup_record e request d sent _ Hp Hc).
Qed.

Lemma lookup_success_witness :
  lookup (stub_env ford_response) sample_request [] =
    (Ok {| make := Some (lit "FORD"); model := None; colour := None;
           year_of_manufacture := Some 2015%Z; fuel_type := None |},
     [] ++ [dvla_request sample_key (str_strip (plate sample_request))]).
Proof.
  apply (proj1 (lookup_success (stub_env ford_response) sample_request
                  sample_key ford_response ford_record []
                  ltac:(nonblank) ltac:(stub_replies) eq_refl eq_refl
                  ltac:(discriminate)));
    reflexivity.
Defined.

(** C1 as stated fails at two inputs, each with the credential ["secret"]
    and the plate [" ab12 cde "].  When the upstream answers 200 with the
    record [{}], every premise of the claim holds, yet the lookup does not
    succeed: it raises 404 "Vehicle not found".  When the upstream answers
    200 with the record [{"make": 7}] and pydantic converts nothing, the
    lookup does not succeed either: it raises a validation error. *)
Lemma lookup_success_counterexample :
  (str_strip (plate sample_request) <> []
   /\ upstream_replies (stub_env empty_record_response)
        (str_strip (plate sample_request)) sample_key empty_record_response
   /\ status_code empty_record_response = 200%Z
   /\ json empty_record_response = Some (PDict [])
   /\ vehicle_record [] = true
   /\ lookup (stub_env empty_record_response) sample_request [] =
        (Raise (HTTPException 404 (lit "Vehicle not found")),
         [dvla_request sample_key (str_strip (plate sample_request))])
   /\ (forall resp sent',
         lookup (stub_env empty_record_response) sample_request []
         <> (Ok resp, sent')))
  /\ (upstream_replies (stub_env mistyped_response)
        (str_strip (plate sample_request)) sample_key mistyped_response
      /\ status_code mistyped_response = 200%Z
      /\ json mistyped_response = Some (PDict [(lit "make", PInt 7)])
      /\ lookup (stub_env mistyped_response) sample_request [] =
           (Raise ValidationError,
            [dvla_request sample_key (str_strip (plate sample_request))])
      /\ (forall resp sent',
            lookup (stub_env mistyped_response) sample_request []
            <> (Ok resp, sent'))).
Proof.
  assert (E : lookup (stub_env empty_record_response) sample_request [] =
       (Raise (HTTPException 404 (lit "Vehicle not found")),
        [dvla_request sample_key (str_strip (plate sample_request))])).
  { vm_compute. reflexivity. }
  assert (M : lookup (stub_env mistyped_response) sample_request [] =
       (Raise ValidationError,
        [dvla_request sample_key (str_strip (plate sample_request))])).
  { vm_compute. reflexivity. }
  split.
  - split; [nonblank|].
    split; [stub_replies|].
    split; [reflexivity|].
    split; [reflexivity|].
    split; [reflexivity|].
    split; [exact E|].
    intros resp sent'. rewrite E. discriminate.
  - split; [stub_replies|].
    split; [reflexivity|].
    split; [reflexivity|].
    split; [exact M|].
    intros resp sent'. rewrite M. discriminate.
Qed.
